(** * api-linter: rule helpers, two rules, and the rule engine

    A shallow embedding of
    - [rules/internal/utils/common_lints.go] (package [utils]),
    - [rules/aip25146/object_values.go] (rule [core::25146::object-values]),
    - the [aip0126] rule [unspecified],
    together with a model of the rule engine (package [lint]: rule names,
    registry, suppression, traversal) that the sources only use.

    Descriptors are Go pointers into a graph (a message may refer to itself),
    so they live in a store addressed by pointers; [None] is Go's [nil].
    Go code is embedded in a state-and-panic monad over that store. *)

From Stdlib Require Import ZArith Lia Ascii String.
From stdpp Require Import base option list gmap strings pretty sorting.

(** ** Go strings *)

(** The double-quote character, for the one message that contains it. *)
Definition dquote : string :=
  String (Ascii.Ascii false true false false false true false false) "".

Module strings.

(** [strings.ToUpper] on one byte: ['a'..'z'] go to ['A'..'Z'].  Bytes
    outside ASCII are left alone, which is exact on ASCII strings (protobuf
    identifiers are ASCII). *)
Definition upper_byte (c : Ascii.ascii) : Ascii.ascii :=
  let n := Ascii.N_of_ascii c in
  if ((97 <=? n) && (n <=? 122))%N then Ascii.ascii_of_N (n - 32) else c.

Fixpoint ToUpper (s : string) : string :=
  match s with
  | EmptyString => EmptyString
  | String c rest => String (upper_byte c) (ToUpper rest)
  end.

(** [strings.Join(elems, sep)]. *)
Fixpoint Join (elems : list string) (sep : string) : string :=
  match elems with
  | [] => ""
  | [x] => x
  | x :: rest => x +:+ sep +:+ Join rest sep
  end.

End strings.

(** ** Descriptors ([github.com/jhump/protoreflect/desc]) and the store *)

Definition addr := positive.

(** A Go pointer: [None] is [nil]. *)
Abbreviation ptr := (option addr).

(** [descriptorpb.FieldDescriptorProto_Type]. *)
Inductive FieldDescriptorProto_Type :=
| TYPE_DOUBLE | TYPE_FLOAT | TYPE_INT64 | TYPE_UINT64 | TYPE_INT32
| TYPE_FIXED64 | TYPE_FIXED32 | TYPE_BOOL | TYPE_STRING | TYPE_GROUP
| TYPE_MESSAGE | TYPE_BYTES | TYPE_UINT32 | TYPE_ENUM | TYPE_SFIXED32
| TYPE_SFIXED64 | TYPE_SINT32 | TYPE_SINT64.

(** Options carried by a field: the values of [(google.api.field_behavior)]
    by name, and the type of a [(google.api.resource_reference)] if any. *)
Record FieldOptions := {
  field_behavior : list string;
  resource_reference : option string;
}.

(** One HTTP binding of a method ([utils.HTTPRule]). *)
Record HTTPRule := {
  Method : string;
  URI : string;
  Body : string;
}.

Record FileDescriptor := {
  file_name : string;
  file_package : string;
}.

Record MessageDescriptor := {
  msg_name : string;
  msg_fqn : string;
  msg_file : ptr;
  msg_fields : list ptr;
}.

(** What the getters of a [*desc.FieldDescriptor] return.  [fld_map_value]
    is the result of [GetMapValueType()]: the value field of the synthetic
    map-entry message, [nil] when the field is not a map. *)
Record FieldDescriptor := {
  fld_name : string;
  fld_file : ptr;
  fld_type : FieldDescriptorProto_Type;
  fld_repeated : bool;
  fld_msg_type : ptr;
  fld_map_value : ptr;
  fld_options : FieldOptions;
}.

Record EnumDescriptor := {
  enum_name : string;
  enum_file : ptr;
}.

Record EnumValueDescriptor := {
  val_name : string;
  val_number : Z;          (* int32 *)
  val_enum : ptr;
}.

Record MethodDescriptor := {
  mth_name : string;
  mth_input : ptr;
  mth_output : ptr;
  mth_http : list HTTPRule;
}.

Record ServiceDescriptor := {
  svc_name : string;
  svc_file : ptr;
  svc_methods : list ptr;
}.

Inductive Node :=
| NFile (d : FileDescriptor)
| NMessage (d : MessageDescriptor)
| NField (d : FieldDescriptor)
| NEnum (d : EnumDescriptor)
| NEnumValue (d : EnumValueDescriptor)
| NService (d : ServiceDescriptor)
| NMethod (d : MethodDescriptor).

(** The heap of descriptors. *)
Abbreviation Store := (gmap addr Node).

(** ** Collaborators that are not part of the embedded sources

    [utils.IsCommonProto], [utils.GetFieldBehavior],
    [utils.GetResourceReference], [utils.GetHTTPRules] and
    [HTTPRule.GetVariables] belong to package [utils] but not to
    [common_lints.go]; [strcase.SnakeCase] and the [%q] verb of [fmt] are
    library code.  Each is taken as an arbitrary function of the descriptor
    it is given. *)
Class Collaborators := {
  is_common_proto : FileDescriptor -> bool;
  field_behavior_set : FieldDescriptor -> gset string;
  resource_reference_of : FieldDescriptor -> option string;
  http_rules_of : MethodDescriptor -> list HTTPRule;
  variables_of : HTTPRule -> gmap string string;
  snake_case : string -> string;
  quote : string -> string;
}.

(** ** The Go monad: a store, and panics *)

Inductive failure :=
| NilDereference   (* "invalid memory address or nil pointer dereference" *)
| IllTyped.        (* a pointer at no node or at a node of another type:
                      ruled out by Go's type system, see [well_typed] *)

Inductive result (A : Type) :=
| Ok (a : A)
| Panic (e : failure).
Arguments Ok {A} a.
Arguments Panic {A} e.

Definition Go (A : Type) : Type := Store -> result A * Store.

Definition run {A} (m : Go A) (s : Store) : result A * Store := m s.

#[export] Instance Go_ret : MRet Go := fun A a s => (Ok a, s).

#[export] Instance Go_bind : MBind Go := fun A B k m s =>
  match m s with
  | (Ok a, s') => k a s'
  | (Panic e, s') => (Panic e, s')
  end.

Definition panic {A} (e : failure) : Go A := fun s => (Panic e, s).

(** [*p]: read the node a pointer refers to. *)
Definition load (p : ptr) : Go Node := fun s =>
  match p with
  | None => (Panic NilDereference, s)
  | Some a => match s !! a with
              | Some n => (Ok n, s)
              | None => (Panic IllTyped, s)
              end
  end.

(** [*p = n]: overwrite a node.  No code below uses it; it is what a
    mutation of the declaration tree would be. *)
Definition store (p : ptr) (n : Node) : Go unit := fun s =>
  match p with
  | None => (Panic NilDereference, s)
  | Some a => (Ok tt, <[a := n]> s)
  end.

(** A computation that leaves every descriptor as it found it, whatever it
    returns and whether or not it panics. *)
Definition read_only {A} (m : Go A) : Prop :=
  forall s : Store, snd (run m s) = s.

Module File.
Definition deref (p : ptr) : Go FileDescriptor :=
  n ← load p; match n with NFile d => mret d | _ => panic IllTyped end.
End File.

Module Message.
Definition deref (p : ptr) : Go MessageDescriptor :=
  n ← load p; match n with NMessage d => mret d | _ => panic IllTyped end.
Definition GetName (p : ptr) : Go string := d ← deref p; mret (msg_name d).
Definition GetFullyQualifiedName (p : ptr) : Go string :=
  d ← deref p; mret (msg_fqn d).
End Message.

Module Field.
Definition deref (p : ptr) : Go FieldDescriptor :=
  n ← load p; match n with NField d => mret d | _ => panic IllTyped end.
Definition GetName (p : ptr) : Go string := d ← deref p; mret (fld_name d).
Definition GetFile (p : ptr) : Go ptr := d ← deref p; mret (fld_file d).
Definition GetType (p : ptr) : Go FieldDescriptorProto_Type := d ← deref p; mret (fld_type d).
Definition IsRepeated (p : ptr) : Go bool := d ← deref p; mret (fld_repeated d).
Definition GetMessageType (p : ptr) : Go ptr := d ← deref p; mret (fld_msg_type d).
Definition GetMapValueType (p : ptr) : Go ptr := d ← deref p; mret (fld_map_value d).
End Field.

Module Enum.
Definition deref (p : ptr) : Go EnumDescriptor :=
  n ← load p; match n with NEnum d => mret d | _ => panic IllTyped end.
Definition GetName (p : ptr) : Go string := d ← deref p; mret (enum_name d).
End Enum.

Module EnumValue.
Definition deref (p : ptr) : Go EnumValueDescriptor :=
  n ← load p; match n with NEnumValue d => mret d | _ => panic IllTyped end.
Definition GetName (p : ptr) : Go string := d ← deref p; mret (val_name d).
Definition GetNumber (p : ptr) : Go Z := d ← deref p; mret (val_number d).
Definition GetEnum (p : ptr) : Go ptr := d ← deref p; mret (val_enum d).
End EnumValue.

Module Method_.
Definition deref (p : ptr) : Go MethodDescriptor :=
  n ← load p; match n with NMethod d => mret d | _ => panic IllTyped end.
Definition GetName (p : ptr) : Go string := d ← deref p; mret (mth_name d).
Definition GetInputType (p : ptr) : Go ptr := d ← deref p; mret (mth_input d).
Definition GetOutputType (p : ptr) : Go ptr := d ← deref p; mret (mth_output d).
End Method_.

(** [md.FindFieldByName(name)]: the first field of the message with that
    name, [nil] if there is none. *)
Fixpoint find_field (name : string) (fields : list ptr) : Go ptr :=
  match fields with
  | [] => mret None
  | f :: rest =>
      n ← Field.GetName f;
      if decide (n = name) then mret f else find_field name rest
  end.

Definition FindFieldByName (m : ptr) (name : string) : Go ptr :=
  d ← Message.deref m; find_field name (msg_fields d).

(** ** Well-typed stores

    Go's type system guarantees that a [*desc.FieldDescriptor] is [nil] or
    points at a field descriptor, and so on for each link. *)

Inductive Kind :=
| KFile | KMessage | KField | KEnum | KEnumValue | KService | KMethod.

Definition kind_of (n : Node) : Kind :=
  match n with
  | NFile _ => KFile | NMessage _ => KMessage | NField _ => KField
  | NEnum _ => KEnum | NEnumValue _ => KEnumValue
  | NService _ => KService | NMethod _ => KMethod
  end.

#[export] Instance Kind_eq_dec : EqDecision Kind.
Proof. solve_decision. Defined.

Definition points_at (s : Store) (k : Kind) (p : ptr) : bool :=
  match p with
  | None => true
  | Some a => match s !! a with
              | Some n => bool_decide (kind_of n = k)
              | None => false
              end
  end.

Definition node_ok (s : Store) (n : Node) : bool :=
  match n with
  | NFile _ => true
  | NMessage d => points_at s KFile (msg_file d)
                  && forallb (points_at s KField) (msg_fields d)
  | NField d => points_at s KFile (fld_file d)
                && points_at s KMessage (fld_msg_type d)
                && points_at s KField (fld_map_value d)
  | NEnum d => points_at s KFile (enum_file d)
  | NEnumValue d => points_at s KEnum (val_enum d)
  | NService d => points_at s KFile (svc_file d)
                  && forallb (points_at s KMethod) (svc_methods d)
  | NMethod d => points_at s KMessage (mth_input d)
                 && points_at s KMessage (mth_output d)
  end.

Definition well_typed (s : Store) : Prop :=
  forall a n, s !! a = Some n -> node_ok s n = true.

(** ** Package [locations]

    Modelled from the spec: package [locations] is not among the sources.
    A Location is "a sub-range identifying which part of the declaration is
    implicated: name span, type span, an HTTP-annotation span"; each function
    of the package is kept as the name of the span it returns. *)
Module locations.

Inductive Location :=
| Whole                          (* no Location given: the whole declaration *)
| FieldType (f : ptr)
| DescriptorName (d : ptr)
| MethodHTTPRule (m : ptr)
| MethodRequestType (m : ptr)
| MethodResponseType (m : ptr).

#[export] Instance Location_eq_dec : EqDecision Location.
Proof. solve_decision. Defined.

End locations.
Export locations.

(** ** Package [lint]: diagnostics, rule names, rules *)
Module lint.

#[local] Set Warnings "-register-all".

(** Modelled from the spec: the struct [lint.Problem] is declared in package
    [lint], which is not among the sources.  A Problem is a "message string,
    optional suggested-fix string, the offending Declaration (by reference),
    and a Location".  The fields are those the sources set; a [Suggestion]
    left unset is Go's empty string and a [Location] left unset is
    [Whole]. *)
Record Problem := {
  Message : string;
  Suggestion : string;
  Descriptor : ptr;
  Location : locations.Location;
}.

#[export] Instance Problem_eq_dec : EqDecision Problem.
Proof. solve_decision. Defined.

(** Modelled from the spec: the type [RuleName] and [NewRuleName] are
    declared in package [lint], which is not among the sources.  A RuleName
    is an "immutable triple (namespace identifier, numeric identifier, short
    kebab-case name)" whose "textual form is the namespace, numeric id, and
    short name joined by a fixed separator". *)
Record RuleName := {
  Namespace : string;
  Number : Z;
  ShortName : string;
}.

#[export] Instance RuleName_eq_dec : EqDecision RuleName.
Proof. solve_decision. Defined.

Definition nameSeparator : string := "::".

(** Modelled from the spec: the textual form of a RuleName. *)
Definition text (n : RuleName) : string :=
  strings.Join [Namespace n; pretty (Number n); ShortName n] nameSeparator.

(** Modelled from the spec: [lint.NewRuleName(aip, name)] names a rule of
    the [core] namespace, as in [core::25146::object-values]. *)
Definition NewRuleName (aip : Z) (name : string) : RuleName :=
  {| Namespace := "core"; Number := aip; ShortName := name |}.

(** Modelled from the spec: a Rule is "polymorphic over declaration kind",
    with a "RuleName, an applicability predicate OnlyIf (defaults to
    always-true), and a check function".  The struct types [lint.FieldRule]
    and [lint.EnumValueRule] are declared in package [lint], which is not
    among the sources; an [OnlyIf] left unset is [None]. *)
Record Rule := {
  Name : RuleName;
  BoundKind : Kind;
  OnlyIf : option (ptr -> Go bool);
  Lint : ptr -> Go (list Problem);
}.

Definition FieldRule (name : RuleName) (onlyIf : option (ptr -> Go bool))
    (LintField : ptr -> Go (list Problem)) : Rule :=
  {| Name := name; BoundKind := KField; OnlyIf := onlyIf; Lint := LintField |}.

Definition EnumValueRule (name : RuleName) (onlyIf : option (ptr -> Go bool))
    (LintEnumValue : ptr -> Go (list Problem)) : Rule :=
  {| Name := name; BoundKind := KEnumValue; OnlyIf := onlyIf;
     Lint := LintEnumValue |}.

(** The applicability guard of a rule, with its default. *)
Definition applies (r : Rule) (d : ptr) : Go bool :=
  match OnlyIf r with
  | Some guard => guard d
  | None => mret true
  end.

(** *** Registry *)

Inductive RegistryError := DuplicateRuleName | RegistryFrozen.

(** Modelled from the spec: the Registry "owns the mapping from RuleName to
    Rule"; the rules are kept in registration order, which is the order
    [RulesForKind] returns them in, and [frozen] is set when traversal
    starts. *)
Record Registry := {
  rules : list Rule;
  frozen : bool;
}.

Definition empty_registry : Registry := {| rules := []; frozen := false |}.

(** Modelled from the spec: "[Lookup(name) -> Rule, found] performs exact
    lookup". *)
Definition Lookup (name : RuleName) (reg : Registry) : option Rule :=
  List.find (fun r => bool_decide (Name r = name)) (rules reg).

(** Modelled from the spec: "[Register(rule)] fails with a
    [DuplicateRuleName] condition if a rule with the same RuleName already
    exists in the registry", and "fails with [RegistryFrozen] once traversal
    has started".  The result is the error, if any, and the registry after
    the call. *)
Definition Register (r : Rule) (reg : Registry)
    : option RegistryError * Registry :=
  match Lookup (Name r) reg with
  | Some _ => (Some DuplicateRuleName, reg)
  | None =>
      if frozen reg then (Some RegistryFrozen, reg)
      else (None, {| rules := rules reg ++ [r]; frozen := frozen reg |})
  end.

Definition Freeze (reg : Registry) : Registry :=
  {| rules := rules reg; frozen := true |}.

(** Modelled from the spec: "[RulesForKind(kind)] returns all rules bound to
    a given declaration kind, in registration order". *)
Definition RulesForKind (k : Kind) (reg : Registry) : list Rule :=
  List.filter (fun r => bool_decide (BoundKind r = k)) (rules reg).

(** *** Suppression *)

(** Modelled from the spec: a rule-name token of a directive is "a
    fully-qualified RuleName, a namespace prefix, meaning all rules at or
    below this namespace, or a wildcard meaning all rules". *)
Inductive Token :=
| Wildcard
| RulePath (path : string).

(** Modelled from the spec: a SuppressionDirective has its targets and "a
    required non-empty justification string". *)
Record SuppressionDirective := {
  targets : list Token;
  justification : string;
}.

(** Modelled from the spec: what the parser finds in a comment block, a
    directive, or text that "matches the directive prefix but fails to
    parse". *)
Inductive Parsed :=
| Directive (d : SuppressionDirective)
| BadSyntax.

(** Modelled from the spec: the "single parser function producing a
    structured SuppressionDirective value"; its grammar is left open. *)
Class DirectiveSyntax := {
  parse : string -> list Parsed;
}.

(** Modelled from the spec: the textual form of a rule name is "the
    suppression-directive key".  A token matches a rule by that text: the
    whole of it, or a prefix of it up to a separator ("all rules at or below
    this namespace"). *)
Definition token_matches (t : Token) (name : RuleName) : bool :=
  match t with
  | Wildcard => true
  | RulePath path =>
      bool_decide (path = text name)
      || String.prefix (path +:+ nameSeparator) (text name)
  end.

(** Modelled from the spec: "a directive lacking justification is a
    configuration error" and is "treated as not suppressing". *)
Definition malformed (p : Parsed) : bool :=
  match p with
  | BadSyntax => true
  | Directive d => bool_decide (justification d = "")
  end.

Definition suppresses (name : RuleName) (p : Parsed) : bool :=
  match p with
  | BadSyntax => false
  | Directive d =>
      negb (bool_decide (justification d = ""))
      && existsb (fun t => token_matches t name) (targets d)
  end.

(** Modelled from the spec: a Declaration is "one node of the schema tree",
    with its kind, "an ordered sequence of child declarations" and "an
    ordered sequence of attached leading-comment text blocks"; the tree is
    "acyclic and finite".  [decl_ptr] is the descriptor the node stands for,
    which is what a rule receives.  A declaration is referred to by its
    path from the root File (the indices of the children to follow). *)
Inductive Declaration :=
  Decl (decl_kind : Kind) (decl_ptr : ptr) (decl_comments : list string)
       (decl_children : list Declaration).

Definition decl_kind (d : Declaration) : Kind :=
  match d with Decl k _ _ _ => k end.
Definition decl_ptr (d : Declaration) : ptr :=
  match d with Decl _ p _ _ => p end.
Definition decl_comments (d : Declaration) : list string :=
  match d with Decl _ _ c _ => c end.
Definition decl_children (d : Declaration) : list Declaration :=
  match d with Decl _ _ _ cs => cs end.

Abbreviation DeclRef := (list nat).

(** The declaration a path leads to. *)
Fixpoint resolve (d : Declaration) (path : DeclRef) : option Declaration :=
  match path with
  | [] => Some d
  | i :: rest =>
      match decl_children d !! i with
      | Some c => resolve c rest
      | None => None
      end
  end.

(** [d'] is [d] or a descendant of [d]. *)
Definition within (d d' : DeclRef) : Prop := exists rest, d' = d ++ rest.

(** Modelled from the spec: "collect the comment text attached to [decl],
    to every ancestor of [decl] up to and including its enclosing File". *)
Fixpoint scope_comments (d : Declaration) (path : DeclRef) : list string :=
  decl_comments d ++
  match path with
  | [] => []
  | i :: rest =>
      match decl_children d !! i with
      | Some c => scope_comments c rest
      | None => []
      end
  end.

(** Modelled from the spec: "[IsSuppressed(decl, name)]": "suppression is a
    simple any-ancestor-matches OR". *)
Definition IsSuppressed `{!DirectiveSyntax}
    (root : Declaration) (decl : DeclRef) (name : RuleName) : bool :=
  existsb (fun block => existsb (suppresses name) (parse block))
          (scope_comments root decl).

(** *** Traversal and dispatch *)

(** Modelled from the spec: what [Run] reports, a Problem of a rule, "tagged
    with [r.Name]"; or one of the two diagnostics of the engine itself, the
    "synthetic [InternalRuleError] Problem naming the failing rule" and the
    [MalformedSuppressionDirective]. *)
Inductive Diagnostic :=
| Finding (rule : RuleName) (p : Problem)
| InternalRuleError (rule : RuleName) (decl : ptr)
| MalformedSuppressionDirective (decl : ptr) (comment : string).

(** The rule name a Problem of a rule is tagged with. *)
Definition RuleID (x : Diagnostic) : option RuleName :=
  match x with
  | Finding rule _ => Some rule
  | InternalRuleError _ _ => None
  | MalformedSuppressionDirective _ _ => None
  end.

(** The rule a diagnostic names, be it as its tag or as the failing rule. *)
Definition named_rule (x : Diagnostic) : option RuleName :=
  match x with
  | Finding rule _ => Some rule
  | InternalRuleError rule _ => Some rule
  | MalformedSuppressionDirective _ _ => None
  end.

(** A diagnostic together with the declaration it was produced for. *)
Record Emission := {
  em_decl : DeclRef;
  em_diag : Diagnostic;
}.

(** Modelled from the spec: steps 2 to 4 of the dispatch, for one rule at
    one declaration: "evaluate [r.OnlyIf(d)]; skip if false", "evaluate
    [IsSuppressed(d, r.Name)]; skip if true", "otherwise invoke [r.Lint(d)]
    and tag each Problem with [r.Name]".  A panic in the rule is caught and
    becomes one [InternalRuleError]. *)
Definition dispatch `{!DirectiveSyntax} (root : Declaration) (here : DeclRef)
    (d : ptr) (r : Rule) (s : Store) : list Diagnostic * Store :=
  match run (applies r d) s with
  | (Panic _, s1) => ([InternalRuleError (Name r) d], s1)
  | (Ok false, s1) => ([], s1)
  | (Ok true, s1) =>
      if IsSuppressed root here (Name r) then ([], s1)
      else match run (Lint r d) s1 with
           | (Ok problems, s2) => (List.map (Finding (Name r)) problems, s2)
           | (Panic _, s2) => ([InternalRuleError (Name r) d], s2)
           end
  end.

Fixpoint dispatch_all `{!DirectiveSyntax} (root : Declaration)
    (here : DeclRef) (d : ptr) (rs : list Rule) (s : Store)
    : list Diagnostic * Store :=
  match rs with
  | [] => ([], s)
  | r :: rest =>
      let '(found, s1) := dispatch root here d r s in
      let '(more, s2) := dispatch_all root here d rest s1 in
      (found ++ more, s2)
  end.

(** Modelled from the spec: the malformed directives among the comments of
    one declaration, reported "once per occurrence". *)
Definition malformed_directives `{!DirectiveSyntax} (d : Declaration)
    : list Diagnostic :=
  flat_map (fun block =>
              List.map (fun _ => MalformedSuppressionDirective (decl_ptr d) block)
                       (List.filter malformed (parse block)))
           (decl_comments d).

(** Modelled from the spec: one visited declaration, "fetch
    [RulesForKind(K)] from the registry", then dispatch each rule. *)
Definition visit `{!DirectiveSyntax} (root : Declaration) (reg : Registry)
    (here : DeclRef) (d : Declaration) (s : Store) : list Emission * Store :=
  let '(found, s1) :=
    dispatch_all root here (decl_ptr d) (RulesForKind (decl_kind d) reg) s in
  (List.map (Build_Emission here) (malformed_directives d ++ found), s1).

(** Modelled from the spec: "a deterministic depth-first pre-order walk of
    the declaration tree", "each child set visited in declared order". *)
Fixpoint walk `{!DirectiveSyntax} (root : Declaration) (reg : Registry)
    (here : DeclRef) (d : Declaration) (s : Store) {struct d}
    : list Emission * Store :=
  let '(own, s1) := visit root reg here d s in
  let '(below, s2) :=
    (fix each (i : nat) (cs : list Declaration) (s : Store) {struct cs} :=
       match cs with
       | [] => ([], s)
       | c :: rest =>
           let '(e1, s') := walk root reg (here ++ [i]) c s in
           let '(e2, s'') := each (S i) rest s' in
           (e1 ++ e2, s'')
       end) 0%nat (decl_children d) s1 in
  (own ++ below, s2).

(** The children of a declaration, from the [i]-th on, in declared order. *)
Fixpoint walk_children `{!DirectiveSyntax} (root : Declaration)
    (reg : Registry) (here : DeclRef) (i : nat) (cs : list Declaration)
    (s : Store) : list Emission * Store :=
  match cs with
  | [] => ([], s)
  | c :: rest =>
      let '(e1, s') := walk root reg (here ++ [i]) c s in
      let '(e2, s'') := walk_children root reg here (S i) rest s' in
      (e1 ++ e2, s'')
  end.

(** Modelled from the spec: "Problems are sorted by (File, declaration
    source position, RuleName)".  One run has one File; the position of a
    declaration is its place in the declared order, that is its path; a
    diagnostic that names no rule comes first. *)
Fixpoint path_leb (p q : DeclRef) : bool :=
  match p, q with
  | [], _ => true
  | _ :: _, [] => false
  | i :: p', j :: q' => (i <? j)%nat || ((i =? j)%nat && path_leb p' q')
  end.

Definition rule_key (x : Diagnostic) : string :=
  match named_rule x with
  | Some name => text name
  | None => ""
  end.

Definition emission_leb (a b : Emission) : bool :=
  if decide (em_decl a = em_decl b)
  then String.leb (rule_key (em_diag a)) (rule_key (em_diag b))
  else path_leb (em_decl a) (em_decl b).

Definition emission_le (a b : Emission) : Prop := emission_leb a b = true.

#[export] Instance emission_le_dec a b : Decision (emission_le a b).
Proof. unfold emission_le. apply _. Defined.

(** The emissions of a run, in output order, and the store the rules leave. *)
Definition emissions `{!DirectiveSyntax} (root : Declaration)
    (reg : Registry) (s : Store) : list Emission * Store :=
  let '(found, s') := walk root reg [] root s in
  (merge_sort emission_le found, s').

(** Modelled from the spec: "[Run(root File, registry Registry) -> ordered
    sequence of Problem]". *)
Definition Run `{!DirectiveSyntax} (root : Declaration) (reg : Registry)
    (s : Store) : list Diagnostic :=
  List.map em_diag (fst (emissions root reg s)).

(** *** Rules that only read *)

(** The guard and the check of [r] leave the descriptors as they found
    them. *)
Definition rule_read_only (r : Rule) : Prop :=
  (forall d, read_only (applies r d)) /\ (forall d, read_only (Lint r d)).

(** *** Where the Problems of a run come from *)

(** [p] is among the Problems that the check of [r] returns on [d], in some
    store. *)
Definition reports (r : Rule) (d : ptr) (p : Problem) : Prop :=
  exists (s s' : Store) (problems : list Problem),
    run (Lint r d) s = (Ok problems, s') /\ In p problems.

(** The Problems of [r] are about the declaration that [r] is given. *)
Definition reports_own_declaration (r : Rule) : Prop :=
  forall d p, reports r d p -> Descriptor p = d.

(** No descriptor stands at two places of the tree. *)
Definition distinct_declarations (root : Declaration) : Prop :=
  forall d1 d2 t1 t2,
    resolve root d1 = Some t1 -> resolve root d2 = Some t2 ->
    decl_ptr t1 = decl_ptr t2 -> d1 = d2.

(** An emission is accounted for when it is for a declaration of the tree
    and, if it is a Problem of a rule, a registered rule of that name and of
    the kind of the declaration, not suppressed there, reports it on that
    declaration. *)
Definition accounted `{!DirectiveSyntax} (root : Declaration)
    (reg : Registry) (e : Emission) : Prop :=
  exists t,
    resolve root (em_decl e) = Some t
    /\ forall name p,
         em_diag e = Finding name p ->
         IsSuppressed root (em_decl e) name = false
         /\ exists r, In r (rules reg) /\ Name r = name
                      /\ BoundKind r = decl_kind t
                      /\ reports r (decl_ptr t) p.

End lint.

(** ** Go's short-circuit operators *)

Definition orelse (a b : Go bool) : Go bool :=
  x ← a; if x : bool then mret true else b.

Definition andalso (a b : Go bool) : Go bool :=
  x ← a; if x : bool then b else mret false.

Infix "|||" := orelse (at level 50, left associativity).
Infix "&&&" := andalso (at level 40, left associativity).

(** ** Package [builder] ([github.com/jhump/protoreflect/desc/builder]) *)
Module builder.

Record FieldType_ := { GetType : FieldDescriptorProto_Type }.

Definition FieldTypeString : FieldType_ := {| GetType := TYPE_STRING |}.
Definition FieldTypeBool : FieldType_ := {| GetType := TYPE_BOOL |}.

End builder.

#[export] Instance FieldDescriptorProto_Type_eq_dec :
  EqDecision FieldDescriptorProto_Type.
Proof. solve_decision. Defined.

(** ** Package [utils]: [common_lints.go] *)
Module utils.
Import lint.

Section common_lints.
Context `{!Collaborators}.

(** The collaborators, called on a pointer. *)
Definition IsCommonProto (f : ptr) : Go bool :=
  d ← File.deref f; mret (is_common_proto d).
Definition GetFieldBehavior (f : ptr) : Go (gset string) :=
  d ← Field.deref f; mret (field_behavior_set d).
Definition GetResourceReference (f : ptr) : Go (option string) :=
  d ← Field.deref f; mret (resource_reference_of d).
Definition GetHTTPRules (m : ptr) : Go (list HTTPRule) :=
  d ← Method_.deref m; mret (http_rules_of d).
Definition GetVariables (r : HTTPRule) : gmap string string := variables_of r.

Record lintErr := {
  problems : list Problem;
  msg : string;
}.

(** A Go [error] holding a [LintErr]: [None] is [nil]. *)
Definition error : Type := option lintErr.

Definition Problems (le : lintErr) : list Problem := problems le.

Definition Error (le : lintErr) : string := msg le.

Definition NewLintErr (problems : list Problem) : lintErr :=
  let messages := List.map (fun p => quote (Message p)) problems in
  {| problems := problems; msg := strings.Join messages ", " |}.

Definition LintFieldPresent (m : ptr) (field : string) : Go (ptr * error) :=
  f ← FindFieldByName m field;
  if decide (f = None) then
    name ← Message.GetName m;
    mret (None, Some (NewLintErr [{|
      Message := "Message `" +:+ name +:+ "` has no `" +:+ field +:+ "` field.";
      Suggestion := "";
      Descriptor := m;
      Location := Whole |}]))
  else mret (f, None).

Definition lintSingularField (f : ptr) (t : builder.FieldType_)
    (want : string) : Go error :=
  bad ← (ty ← Field.GetType f; mret (bool_decide (ty ≠ builder.GetType t)))
        ||| Field.IsRepeated f;
  if bad : bool then
    name ← Field.GetName f;
    mret (Some (NewLintErr [{|
      Message := "The `" +:+ name +:+ "` field must be a singular " +:+ want +:+ ".";
      Suggestion := want;
      Descriptor := f;
      Location := FieldType f |}]))
  else mret None.

Definition LintSingularStringField (f : ptr) : Go error :=
  lintSingularField f builder.FieldTypeString "string".

Definition LintSingularBoolField (f : ptr) : Go error :=
  lintSingularField f builder.FieldTypeBool "bool".

Definition LintFieldMask (f : ptr) : Go error :=
  let want := "google.protobuf.FieldMask" in
  t ← Field.GetMessageType f;
  bad ← mret (bool_decide (t = None))
        ||| (fqn ← Message.GetFullyQualifiedName t;
             mret (bool_decide (fqn ≠ want)))
        ||| Field.IsRepeated f;
  if bad : bool then
    name ← Field.GetName f;
    mret (Some (NewLintErr [{|
      Message := "The `" +:+ name +:+ "` field should be a singular " +:+ want +:+ ".";
      Suggestion := want;
      Descriptor := f;
      Location := FieldType f |}]))
  else mret None.

Definition LintFieldPresentAndSingularString (field : string) (m : ptr)
    : Go error :=
  '(f, err) ← LintFieldPresent m field;
  if decide (err ≠ None) then mret err
  else LintSingularStringField f.

Definition lintFieldBehavior (f : ptr) (want : string) : Go error :=
  behavior ← GetFieldBehavior f;
  if negb (bool_decide (want ∈ behavior)) then
    name ← Field.GetName f;
    mret (Some (NewLintErr [{|
      Message := "The `" +:+ name
                 +:+ "` field should include `(google.api.field_behavior) = "
                 +:+ want +:+ "`.";
      Suggestion := "";
      Descriptor := f;
      Location := Whole |}]))
  else mret None.

Definition LintRequiredField (f : ptr) : Go error :=
  lintFieldBehavior f "REQUIRED".

Definition LintOutputOnlyField (f : ptr) : Go error :=
  lintFieldBehavior f "OUTPUT_ONLY".

Definition LintFieldResourceReference (f : ptr) : Go error :=
  ref ← GetResourceReference f;
  if decide (ref = None) then
    name ← Field.GetName f;
    mret (Some (NewLintErr [{|
      Message := "The `" +:+ name
                 +:+ "` field should include a `google.api.resource_reference` annotation.";
      Suggestion := "";
      Descriptor := f;
      Location := Whole |}]))
  else mret None.

(** The body of the [for ... range] of [lintHTTPBody]: it returns at the
    first HTTP rule whose body is not the wanted one. *)
Fixpoint lintHTTPBody_range (m : ptr) (want msg : string)
    (httpRules : list HTTPRule) : Go error :=
  match httpRules with
  | [] => mret None
  | httpRule :: rest =>
      if decide (Body httpRule ≠ want) then
        name ← Method_.GetName m;
        mret (Some (NewLintErr [{|
          Message := "The `" +:+ name +:+ "` method should " +:+ msg +:+ " HTTP body.";
          Suggestion := "";
          Descriptor := m;
          Location := MethodHTTPRule m |}]))
      else lintHTTPBody_range m want msg rest
  end.

Definition lintHTTPBody (m : ptr) (want msg : string) : Go error :=
  httpRules ← GetHTTPRules m;
  lintHTTPBody_range m want msg httpRules.

Definition LintNoHTTPBody (m : ptr) : Go error :=
  lintHTTPBody m "" "not have an".

Definition LintWildcardHTTPBody (m : ptr) : Go error :=
  lintHTTPBody m "*" ("use " +:+ dquote +:+ "*" +:+ dquote +:+ " as the").

Fixpoint LintHTTPMethod_range (verb : string) (m : ptr)
    (httpRules : list HTTPRule) : Go error :=
  match httpRules with
  | [] => mret None
  | httpRule :: rest =>
      if decide (Method httpRule ≠ verb) then
        name ← Method_.GetName m;
        mret (Some (NewLintErr [{|
          Message := "The `" +:+ name +:+ "` method should use the HTTP "
                     +:+ verb +:+ " verb.";
          Suggestion := "";
          Descriptor := m;
          Location := MethodHTTPRule m |}]))
      else LintHTTPMethod_range verb m rest
  end.

Definition LintHTTPMethod (verb : string) (m : ptr) : Go error :=
  httpRules ← GetHTTPRules m;
  LintHTTPMethod_range verb m httpRules.

Definition LintMethodHasMatchingRequestName (m : ptr) : Go error :=
  input ← Method_.GetInputType m;
  got ← Message.GetName input;
  name ← Method_.GetName m;
  let want := name +:+ "Request" in
  if decide (got ≠ want) then
    mret (Some (NewLintErr [{|
      Message := "Request message should be named after the RPC, i.e. "
                 +:+ quote want +:+ ".";
      Suggestion := want;
      Descriptor := m;
      Location := MethodRequestType m |}]))
  else mret None.

Definition LintMethodHasMatchingResponseName (m : ptr) : Go error :=
  output ← Method_.GetOutputType m;
  got ← Message.GetName output;
  name ← Method_.GetName m;
  let want := name +:+ "Response" in
  if decide (got ≠ want) then
    mret (Some (NewLintErr [{|
      Message := "Response message should be named after the RPC, i.e. "
                 +:+ quote want +:+ ".";
      Suggestion := want;
      Descriptor := m;
      Location := MethodResponseType m |}]))
  else mret None.

Fixpoint LintHTTPURIHasVariable_range (m : ptr) (v : string)
    (httpRules : list HTTPRule) : Go error :=
  match httpRules with
  | [] => mret None
  | httpRule :: rest =>
      if decide (GetVariables httpRule !! v = None) then
        mret (Some (NewLintErr [{|
          Message := "HTTP URI should include a `" +:+ v +:+ "` variable.";
          Suggestion := "";
          Descriptor := m;
          Location := MethodHTTPRule m |}]))
      else LintHTTPURIHasVariable_range m v rest
  end.

Definition LintHTTPURIHasVariable (m : ptr) (v : string) : Go error :=
  httpRules ← GetHTTPRules m;
  LintHTTPURIHasVariable_range m v httpRules.

Definition LintHTTPURIHasParentVariable (m : ptr) : Go error :=
  LintHTTPURIHasVariable m "parent".

Definition LintHTTPURIHasNameVariable (m : ptr) : Go error :=
  LintHTTPURIHasVariable m "name".

Definition max (x y : Z) : Z := if decide (x > y)%Z then x else y.

Definition LintHTTPURIVariableCount (m : ptr) (n : Z) : Go error :=
  let varsText := if decide (n = 1%Z) then "variable" else "variables" in
  httpRules ← GetHTTPRules m;
  let varsCount :=
    fold_left (fun varsCount httpRule =>
                 max varsCount (Z.of_nat (size (GetVariables httpRule))))
              httpRules 0%Z in
  if decide (varsCount ≠ n) then
    mret (Some (NewLintErr [{|
      Message := "HTTP URI should contain " +:+ pretty n +:+ " " +:+ varsText +:+ ".";
      Suggestion := "";
      Descriptor := m;
      Location := MethodHTTPRule m |}]))
  else mret None.

End common_lints.
End utils.

(** ** Package [aip25146]: [object_values.go] *)
Module aip25146.
Import lint.

Section object_values.
Context `{!Collaborators}.

Definition objectValues : Rule :=
  FieldRule
    (NewRuleName 25146 "object-values")
    (Some (fun f =>
       (file ← Field.GetFile f;
        common ← utils.IsCommonProto file;
        mret (negb common))
       &&& (mv ← Field.GetMapValueType f; mret (bool_decide (mv ≠ None)))))
    (fun f =>
       mv ← Field.GetMapValueType f;
       mt ← Field.GetMessageType mv;
       if decide (mt ≠ None) then
         mret [{|
           Message := "Avoid using objects as map values.";
           Suggestion := "";
           Descriptor := f;
           Location := FieldType f |}]
       else mret []).

End object_values.
End aip25146.

(** ** Package [aip0126]: the rule [unspecified] *)
Module aip0126.
Import lint.

Section unspecified.
Context `{!Collaborators}.

(** Note: proto3 requires that first value in enum have numeric value of 0. *)
Definition isFirstEnumValue (v : ptr) : Go bool :=
  n ← EnumValue.GetNumber v; mret (bool_decide (n = 0%Z)).

(** The name the rule wants for the first value of the enum named [enum]. *)
Definition wanted (enum : string) : string :=
  strings.ToUpper (snake_case enum +:+ "_UNSPECIFIED").

Definition unspecified : Rule :=
  EnumValueRule
    (NewRuleName 126 "unspecified")
    (Some isFirstEnumValue)
    (fun v =>
       enum ← EnumValue.GetEnum v;
       enumName ← Enum.GetName enum;
       let want := wanted enumName in
       name ← EnumValue.GetName v;
       if decide (name ≠ want) then
         mret [{|
           Message := "The first enum value should be " +:+ quote want;
           Suggestion := want;
           Descriptor := v;
           Location := DescriptorName v |}]
       else mret []).

End unspecified.
End aip0126.

(** ** A small schema for examples

    [library.proto], after the example of the rule's documentation:
<<
    message Book { map<int32, Page> contents = 1; }
>>
    with a second message [Shelf] holding a map of books, an enum, and a
    service with one method. *)
Module example.
Import lint.

Definition newline : string :=
  String (Ascii.Ascii false true false true false false false false) "".

(** *** An instance of the collaborators *)

Definition lower_byte (c : Ascii.ascii) : Ascii.ascii :=
  let n := Ascii.N_of_ascii c in
  if ((65 <=? n) && (n <=? 90))%N then Ascii.ascii_of_N (n + 32) else c.

Definition isUpper (c : Ascii.ascii) : bool :=
  let n := Ascii.N_of_ascii c in ((65 <=? n) && (n <=? 90))%N.

Definition isLower (c : Ascii.ascii) : bool :=
  let n := Ascii.N_of_ascii c in ((97 <=? n) && (n <=? 122))%N.

Definition isDelimiter (c : Ascii.ascii) : bool :=
  match c with
  | "-" | "_" | " " | "009" | "010" | "013" => true
  | _ => false
  end%char.

(** The loop of [strcase]'s snake case over a string without surrounding
    space: [prev] and [curr] trail the character being read, and start as
    the zero rune. *)
Fixpoint snake_loop (prev curr : Ascii.ascii) (s : string) : string :=
  match s with
  | EmptyString =>
      if Ascii.eqb curr Ascii.zero then ""
      else (if isUpper curr && isLower prev then "_" else "")
           +:+ String (lower_byte curr) ""
  | String next rest =>
      (if isDelimiter curr then
         (if isDelimiter prev then "" else "_")
       else if isUpper curr then
         (if isLower prev || (isUpper prev && isLower next) then "_" else "")
         +:+ String (lower_byte curr) ""
       else if Ascii.eqb curr Ascii.zero then ""
       else String (lower_byte curr) "")
      +:+ snake_loop curr next rest
  end.

Definition SnakeCase (s : string) : string :=
  snake_loop Ascii.zero Ascii.zero s.

(** The variables of a URI template: [{name}] binds [name] to ["*"] and
    [{name=pattern}] binds it to [pattern]. *)
Inductive scan := Outside | InName (name : string) | InPattern (name pattern : string).

Fixpoint scan_variables (st : scan) (uri : string) : gmap string string :=
  match uri with
  | EmptyString => ∅
  | String c rest =>
      match st with
      | Outside =>
          if Ascii.eqb c "{" then scan_variables (InName "") rest
          else scan_variables Outside rest
      | InName name =>
          if Ascii.eqb c "}" then <[name := "*"]> (scan_variables Outside rest)
          else if Ascii.eqb c "=" then scan_variables (InPattern name "") rest
          else scan_variables (InName (name +:+ String c "")) rest
      | InPattern name pattern =>
          if Ascii.eqb c "}"
          then <[name := pattern]> (scan_variables Outside rest)
          else scan_variables (InPattern name (pattern +:+ String c "")) rest
      end
  end.

Definition collaborators : Collaborators := {|
  is_common_proto f :=
    existsb (fun p => String.prefix p (file_package f))
            ["google.api"; "google.protobuf"; "google.rpc"; "google.longrunning"];
  field_behavior_set f := list_to_set (field_behavior (fld_options f));
  resource_reference_of f := resource_reference (fld_options f);
  http_rules_of m := mth_http m;
  variables_of r := scan_variables Outside (URI r);
  snake_case := SnakeCase;
  quote s := dquote +:+ s +:+ dquote;
|}.

(** *** An instance of the directive syntax

    The directive of the rule documentation, read word by word:
<<
    (-- api-linter: core::25146::object-values=disabled
        aip.dev/not-precedent: We need to do this because reasons. --)
>> *)

Fixpoint split_on (sep : Ascii.ascii) (cur : string) (s : string) : list string :=
  match s with
  | EmptyString => [String.rev cur]
  | String c rest =>
      if Ascii.eqb c sep then String.rev cur :: split_on sep "" rest
      else split_on sep (String c cur) rest
  end.

(** [w] without the suffix [=disabled], if it has it. *)
Definition disabled_token (w : string) : option Token :=
  let n := String.length w in
  let k := String.length "=disabled" in
  if (k <=? n)%nat && String.eqb (String.substring (n - k) k w) "=disabled"
  then let path := String.substring 0 (n - k) w in
       Some (if String.eqb path "" || String.eqb path "*"
             then Wildcard else RulePath path)
  else None.

Fixpoint after_word (tag : string) (ws : list string) : option (list string) :=
  match ws with
  | [] => None
  | w :: rest => if String.eqb w tag then Some rest else after_word tag rest
  end.

Fixpoint until_word (stop : string) (ws : list string) : list string :=
  match ws with
  | [] => []
  | w :: rest => if String.eqb w stop then [] else w :: until_word stop rest
  end.

(** The tokens that follow the prefix tag: the words made of
    comma-separated [path=disabled] items. *)
Fixpoint leading_tokens (ws : list string) : list Token :=
  match ws with
  | [] => []
  | w :: rest =>
      let items := List.filter (fun i => negb (String.eqb i ""))
                               (split_on "," "" w) in
      match mapM disabled_token items with
      | Some (t :: ts) => (t :: ts) ++ leading_tokens rest
      | _ => []
      end
  end.

Definition parse_block (block : string) : list Parsed :=
  let ws := String.words block in
  match after_word "api-linter:" ws with
  | None => []
  | Some rest =>
      match leading_tokens rest with
      | [] => [BadSyntax]
      | ts =>
          let why := match after_word "aip.dev/not-precedent:" ws with
                     | Some text => strings.Join (until_word "--)" text) " "
                     | None => ""
                     end in
          [Directive {| targets := ts; justification := why |}]
      end
  end.

Definition syntax : DirectiveSyntax := {| parse := parse_block |}.

(** *** The descriptors *)

Definition no_options : FieldOptions :=
  {| field_behavior := []; resource_reference := None |}.

Definition library_proto : FileDescriptor :=
  {| file_name := "library.proto"; file_package := "library.v1" |}.

Definition Book : MessageDescriptor :=
  {| msg_name := "Book"; msg_fqn := "library.v1.Book";
     msg_file := Some 1%positive; msg_fields := [Some 4%positive] |}.

Definition Page : MessageDescriptor :=
  {| msg_name := "Page"; msg_fqn := "library.v1.Page";
     msg_file := Some 1%positive; msg_fields := [] |}.

(** [map<int32, Page> contents = 1], marked [OUTPUT_ONLY]. *)
Definition contents : FieldDescriptor :=
  {| fld_name := "contents"; fld_file := Some 1%positive;
     fld_type := TYPE_MESSAGE; fld_repeated := true;
     fld_msg_type := Some 5%positive; fld_map_value := Some 7%positive;
     fld_options := {| field_behavior := ["OUTPUT_ONLY"];
                       resource_reference := None |} |}.

Definition ContentsEntry : MessageDescriptor :=
  {| msg_name := "ContentsEntry"; msg_fqn := "library.v1.Book.ContentsEntry";
     msg_file := Some 1%positive;
     msg_fields := [Some 6%positive; Some 7%positive] |}.

Definition contents_key : FieldDescriptor :=
  {| fld_name := "key"; fld_file := Some 1%positive;
     fld_type := TYPE_INT32; fld_repeated := false;
     fld_msg_type := None; fld_map_value := None;
     fld_options := no_options |}.

Definition contents_value : FieldDescriptor :=
  {| fld_name := "value"; fld_file := Some 1%positive;
     fld_type := TYPE_MESSAGE; fld_repeated := false;
     fld_msg_type := Some 3%positive; fld_map_value := None;
     fld_options := no_options |}.

Definition BookFormat : EnumDescriptor :=
  {| enum_name := "BookFormat"; enum_file := Some 1%positive |}.

Definition FORMAT_UNSPECIFIED : EnumValueDescriptor :=
  {| val_name := "FORMAT_UNSPECIFIED"; val_number := 0;
     val_enum := Some 8%positive |}.

Definition HARDCOVER : EnumValueDescriptor :=
  {| val_name := "HARDCOVER"; val_number := 1; val_enum := Some 8%positive |}.

Definition Genre : EnumDescriptor :=
  {| enum_name := "Genre"; enum_file := Some 1%positive |}.

Definition GENRE_UNSPECIFIED : EnumValueDescriptor :=
  {| val_name := "GENRE_UNSPECIFIED"; val_number := 0;
     val_enum := Some 11%positive |}.

(** [rpc GetBook(GetBookRequest) returns (Book)], with two HTTP bindings
    that both have a body. *)
Definition GetBook : MethodDescriptor :=
  {| mth_name := "GetBook";
     mth_input := Some 14%positive; mth_output := Some 2%positive;
     mth_http := [ {| Method := "GET";
                      URI := "/v1/{name=publishers/*/books/*}";
                      Body := "*" |};
                   {| Method := "GET"; URI := "/v1/{name=books/*}";
                      Body := "book" |} ] |}.

Definition GetBookRequest : MessageDescriptor :=
  {| msg_name := "GetBookRequest"; msg_fqn := "library.v1.GetBookRequest";
     msg_file := Some 1%positive; msg_fields := [Some 15%positive] |}.

Definition request_name : FieldDescriptor :=
  {| fld_name := "name"; fld_file := Some 1%positive;
     fld_type := TYPE_STRING; fld_repeated := false;
     fld_msg_type := None; fld_map_value := None;
     fld_options := no_options |}.

Definition Library : ServiceDescriptor :=
  {| svc_name := "Library"; svc_file := Some 1%positive;
     svc_methods := [Some 13%positive] |}.

Definition Shelf : MessageDescriptor :=
  {| msg_name := "Shelf"; msg_fqn := "library.v1.Shelf";
     msg_file := Some 1%positive; msg_fields := [Some 18%positive] |}.

(** [map<string, Book> books = 1]. *)
Definition books : FieldDescriptor :=
  {| fld_name := "books"; fld_file := Some 1%positive;
     fld_type := TYPE_MESSAGE; fld_repeated := true;
     fld_msg_type := Some 19%positive; fld_map_value := Some 21%positive;
     fld_options := no_options |}.

Definition BooksEntry : MessageDescriptor :=
  {| msg_name := "BooksEntry"; msg_fqn := "library.v1.Shelf.BooksEntry";
     msg_file := Some 1%positive;
     msg_fields := [Some 20%positive; Some 21%positive] |}.

Definition books_key : FieldDescriptor :=
  {| fld_name := "key"; fld_file := Some 1%positive;
     fld_type := TYPE_STRING; fld_repeated := false;
     fld_msg_type := None; fld_map_value := None;
     fld_options := no_options |}.

Definition books_value : FieldDescriptor :=
  {| fld_name := "value"; fld_file := Some 1%positive;
     fld_type := TYPE_MESSAGE; fld_repeated := false;
     fld_msg_type := Some 2%positive; fld_map_value := None;
     fld_options := no_options |}.

Definition heap : Store :=
  list_to_map
    [ (1%positive, NFile library_proto);
      (2%positive, NMessage Book);
      (3%positive, NMessage Page);
      (4%positive, NField contents);
      (5%positive, NMessage ContentsEntry);
      (6%positive, NField contents_key);
      (7%positive, NField contents_value);
      (8%positive, NEnum BookFormat);
      (9%positive, NEnumValue FORMAT_UNSPECIFIED);
      (10%positive, NEnumValue HARDCOVER);
      (11%positive, NEnum Genre);
      (12%positive, NEnumValue GENRE_UNSPECIFIED);
      (13%positive, NMethod GetBook);
      (14%positive, NMessage GetBookRequest);
      (15%positive, NField request_name);
      (16%positive, NService Library);
      (17%positive, NMessage Shelf);
      (18%positive, NField books);
      (19%positive, NMessage BooksEntry);
      (20%positive, NField books_key);
      (21%positive, NField books_value) ].

(** *** The declaration tree *)

Definition disable_object_values : string :=
  " (-- api-linter: core::25146::object-values=disabled" +:+ newline
  +:+ "     aip.dev/not-precedent: We need to do this because reasons. --)".

(** The same directive, without its justification. *)
Definition disable_unjustified : string :=
  " (-- api-linter: core::25146::object-values=disabled --)".

(** [Book] with the given leading comments. *)
Definition Book_decl (comments : list string) : Declaration :=
  Decl KMessage (Some 2%positive) comments
    [Decl KField (Some 4%positive) [] []].

Definition Shelf_decl : Declaration :=
  Decl KMessage (Some 17%positive) []
    [Decl KField (Some 18%positive) [] []].

(** The file, with the given leading comments on [Book]. *)
Definition library (book_comments : list string) : Declaration :=
  Decl KFile (Some 1%positive) []
    [ Book_decl book_comments;
      Decl KMessage (Some 3%positive) [] [];
      Shelf_decl;
      Decl KEnum (Some 8%positive) []
        [ Decl KEnumValue (Some 9%positive) [] [];
          Decl KEnumValue (Some 10%positive) [] [] ];
      Decl KService (Some 16%positive) []
        [ Decl KMethod (Some 13%positive) [] [] ] ].

(** The registry after registering the two rules. *)
Definition registry : Registry :=
  snd (Register (@aip0126.unspecified collaborators)
         (snd (Register (@aip25146.objectValues collaborators)
                 empty_registry))).

End example.

(** ** What a piece of Go code can return *)

(** Whenever [m] returns, in whatever store, its result satisfies [Q]. *)
Definition yields {A} (Q : A -> Prop) (m : Go A) : Prop :=
  forall (s s' : Store) (a : A), run m s = (Ok a, s') -> Q a.

(** An error, when there is one, carries exactly one Problem, and that
    Problem is about [d]. *)
Definition one_problem_about (d : ptr) (err : utils.error) : Prop :=
  forall le, err = Some le ->
    exists p, utils.Problems le = [p] /\ lint.Descriptor p = d.

(** The string has a byte in ['a'..'z']. *)
Fixpoint has_lower (s : string) : bool :=
  match s with
  | EmptyString => false
  | String c rest =>
      let n := Ascii.N_of_ascii c in
      ((97 <=? n) && (n <=? 122))%N || has_lower rest
  end.

(** The pointer is at a field of the store with the given name. *)
Definition field_named (s : Store) (name : string) (p : ptr) : bool :=
  match p with
  | Some a => match s !! a with
              | Some (NField d) => bool_decide (fld_name d = name)
              | _ => false
              end
  | None => false
  end.

(** The pointer is at a field of the store. *)
Definition is_field (s : Store) (p : ptr) : bool :=
  match p with
  | Some a => match s !! a with
              | Some (NField _) => true
              | _ => false
              end
  | None => false
  end.

(** * Properties *)

Import lint.

(** ** Running Go code *)

Section go_monad.
Context {A B : Type}.

Lemma run_ret (a : A) (s : Store) : run (mret a) s = (Ok a, s).
Proof. reflexivity. Qed.

Lemma run_bind (m : Go A) (k : A -> Go B) (s : Store) :
  run (x ← m; k x) s =
  match run m s with
  | (Ok a, s') => run (k a) s'
  | (Panic e, s') => (Panic e, s')
  end.
Proof. reflexivity. Qed.

Lemma run_bind_ok (m : Go A) (k : A -> Go B) (s s' : Store) (a : A) :
  run m s = (Ok a, s') -> run (x ← m; k x) s = run (k a) s'.
Proof. intros H. rewrite run_bind, H. reflexivity. Qed.

Lemma run_bind_panic (m : Go A) (k : A -> Go B) (s s' : Store) e :
  run m s = (Panic e, s') -> run (x ← m; k x) s = (Panic e, s').
Proof. intros H. rewrite run_bind, H. reflexivity. Qed.

End go_monad.

(** Unfold a piece of Go code down to the lookups it makes in the store. *)
Ltac go_unfold :=
  cbv beta iota zeta delta
    [run applies OnlyIf Lint FieldRule EnumValueRule
     aip25146.objectValues aip0126.unspecified aip0126.isFirstEnumValue
     andalso orelse panic load mbind Go_bind mret Go_ret
     File.deref Message.deref Field.deref Enum.deref EnumValue.deref
     Method_.deref Message.GetName Message.GetFullyQualifiedName
     Field.GetName Field.GetFile Field.GetType Field.IsRepeated
     Field.GetMessageType Field.GetMapValueType
     Enum.GetName EnumValue.GetName EnumValue.GetNumber EnumValue.GetEnum
     Method_.GetName Method_.GetInputType Method_.GetOutputType
     utils.IsCommonProto utils.GetFieldBehavior utils.GetResourceReference
     utils.GetHTTPRules].

(** Resolve the lookups that the hypotheses know. *)
Ltac go_lookup :=
  repeat match goal with
         | H : ?s !! ?a = Some _ |- context [?s !! ?a] =>
             rewrite H; cbv beta iota zeta
         end.

(** ** Reading does not write *)

Section read_only.
Context {A B : Type}.

Lemma read_only_ret (a : A) : read_only (mret a).
Proof. intros s. reflexivity. Qed.

Lemma read_only_panic e : read_only (@panic A e).
Proof. intros s. reflexivity. Qed.

Lemma read_only_bind (m : Go A) (k : A -> Go B) :
  read_only m -> (forall a, read_only (k a)) -> read_only (x ← m; k x).
Proof.
  intros Hm Hk s. rewrite run_bind.
  specialize (Hm s). destruct (run m s) as [[a | e] s']; simpl in Hm; subst s'.
  - apply Hk.
  - reflexivity.
Qed.

(** What a read-only computation returns is all there is to it. *)
Lemma read_only_run (m : Go A) (s : Store) :
  read_only m -> run m s = (fst (run m s), s).
Proof. intros H. rewrite <- (H s) at 3. apply surjective_pairing. Qed.

(** After a read-only computation, any other one runs as if it were first. *)
Lemma read_only_then (before : Go A) (m : Go B) (s : Store) :
  read_only before -> run m (snd (run before s)) = run m s.
Proof. intros H. rewrite (H s). reflexivity. Qed.

End read_only.

Lemma read_only_load (p : ptr) : read_only (load p).
Proof.
  intros s. unfold run, load. destruct p as [a |]; [| reflexivity].
  destruct (s !! a); reflexivity.
Qed.

(** The store primitive is not read-only: the frame property below is a
    property of the code, not of the monad. *)
Lemma store_not_read_only :
  ~ read_only (store (Some 1%positive) (NFile example.library_proto)).
Proof.
  intros H. specialize (H ∅). unfold run, store in H. simpl in H.
  apply (f_equal (fun m : Store => m !! 1%positive)) in H.
  rewrite lookup_insert_eq, lookup_empty in H. discriminate.
Qed.

Create HintDb read_only.

#[export] Hint Resolve read_only_ret read_only_panic read_only_load : read_only.

Ltac read_only_step :=
  match goal with
  | |- read_only (mbind _ _) => apply read_only_bind; [| intros ?]
  | |- read_only (_ ||| _) => apply read_only_bind; [| intros ?]
  | |- read_only (_ &&& _) => apply read_only_bind; [| intros ?]
  | |- read_only (if ?c then _ else _) => destruct c
  | |- read_only (match ?x with _ => _ end) => destruct x
  | |- read_only _ => solve [eauto with read_only]
  end.

Ltac read_only := repeat read_only_step.

Section getters_read_only.
Variable p : ptr.

Lemma File_deref_read_only : read_only (File.deref p).
Proof. unfold File.deref. read_only. Qed.

Lemma Message_deref_read_only : read_only (Message.deref p).
Proof. unfold Message.deref. read_only. Qed.

Lemma Field_deref_read_only : read_only (Field.deref p).
Proof. unfold Field.deref. read_only. Qed.

Lemma Enum_deref_read_only : read_only (Enum.deref p).
Proof. unfold Enum.deref. read_only. Qed.

Lemma EnumValue_deref_read_only : read_only (EnumValue.deref p).
Proof. unfold EnumValue.deref. read_only. Qed.

Lemma Method_deref_read_only : read_only (Method_.deref p).
Proof. unfold Method_.deref. read_only. Qed.

End getters_read_only.

#[export] Hint Resolve File_deref_read_only Message_deref_read_only
  Field_deref_read_only Enum_deref_read_only EnumValue_deref_read_only
  Method_deref_read_only : read_only.

#[export] Hint Unfold Message.GetName Message.GetFullyQualifiedName
  Field.GetName Field.GetFile Field.GetType Field.IsRepeated
  Field.GetMessageType Field.GetMapValueType
  Enum.GetName EnumValue.GetName EnumValue.GetNumber EnumValue.GetEnum
  Method_.GetName Method_.GetInputType Method_.GetOutputType : read_only.

Lemma find_field_read_only (name : string) (fields : list ptr) :
  read_only (find_field name fields).
Proof.
  induction fields as [| f rest IH]; simpl.
  - apply read_only_ret.
  - autounfold with read_only. read_only.
Qed.

Lemma FindFieldByName_read_only (m : ptr) (name : string) :
  read_only (FindFieldByName m name).
Proof. unfold FindFieldByName. read_only. apply find_field_read_only. Qed.

#[export] Hint Resolve FindFieldByName_read_only : read_only.

(** ** The checks leave the declarations as they found them *)

Section frame.
Context `{!Collaborators}.

Lemma IsCommonProto_read_only f : read_only (utils.IsCommonProto f).
Proof. unfold utils.IsCommonProto. read_only. Qed.

Lemma GetFieldBehavior_read_only f : read_only (utils.GetFieldBehavior f).
Proof. unfold utils.GetFieldBehavior. read_only. Qed.

Lemma GetResourceReference_read_only f :
  read_only (utils.GetResourceReference f).
Proof. unfold utils.GetResourceReference. read_only. Qed.

Lemma GetHTTPRules_read_only m : read_only (utils.GetHTTPRules m).
Proof. unfold utils.GetHTTPRules. read_only. Qed.

Hint Resolve IsCommonProto_read_only GetFieldBehavior_read_only
  GetResourceReference_read_only GetHTTPRules_read_only : read_only.

Ltac frame := autounfold with read_only; read_only.

Lemma LintFieldPresent_read_only m field :
  read_only (utils.LintFieldPresent m field).
Proof. unfold utils.LintFieldPresent. frame. Qed.

Lemma lintSingularField_read_only f t want :
  read_only (utils.lintSingularField f t want).
Proof. unfold utils.lintSingularField. frame. Qed.

Lemma LintFieldMask_read_only f : read_only (utils.LintFieldMask f).
Proof. unfold utils.LintFieldMask. frame. Qed.

Lemma LintFieldPresentAndSingularString_read_only field m :
  read_only (utils.LintFieldPresentAndSingularString field m).
Proof.
  unfold utils.LintFieldPresentAndSingularString.
  apply read_only_bind; [apply LintFieldPresent_read_only |].
  intros [f err]. destruct (decide _); [apply read_only_ret |].
  apply lintSingularField_read_only.
Qed.

Lemma lintFieldBehavior_read_only f want :
  read_only (utils.lintFieldBehavior f want).
Proof. unfold utils.lintFieldBehavior. frame. Qed.

Lemma LintFieldResourceReference_read_only f :
  read_only (utils.LintFieldResourceReference f).
Proof. unfold utils.LintFieldResourceReference. frame. Qed.

Lemma lintHTTPBody_read_only m want msg :
  read_only (utils.lintHTTPBody m want msg).
Proof.
  unfold utils.lintHTTPBody. apply read_only_bind; [frame |].
  intros httpRules. induction httpRules as [| r rest IH]; simpl; frame.
Qed.

Lemma LintHTTPMethod_read_only verb m :
  read_only (utils.LintHTTPMethod verb m).
Proof.
  unfold utils.LintHTTPMethod. apply read_only_bind; [frame |].
  intros httpRules. induction httpRules as [| r rest IH]; simpl; frame.
Qed.

Lemma LintMethodHasMatchingRequestName_read_only m :
  read_only (utils.LintMethodHasMatchingRequestName m).
Proof. unfold utils.LintMethodHasMatchingRequestName. frame. Qed.

Lemma LintMethodHasMatchingResponseName_read_only m :
  read_only (utils.LintMethodHasMatchingResponseName m).
Proof. unfold utils.LintMethodHasMatchingResponseName. frame. Qed.

Lemma LintHTTPURIHasVariable_read_only m v :
  read_only (utils.LintHTTPURIHasVariable m v).
Proof.
  unfold utils.LintHTTPURIHasVariable. apply read_only_bind; [frame |].
  intros httpRules. induction httpRules as [| r rest IH]; simpl; frame.
Qed.

Lemma LintHTTPURIVariableCount_read_only m n :
  read_only (utils.LintHTTPURIVariableCount m n).
Proof. unfold utils.LintHTTPURIVariableCount. frame. Qed.

Lemma objectValues_OnlyIf_read_only f :
  read_only (applies aip25146.objectValues f).
Proof. unfold applies, aip25146.objectValues. simpl. frame. Qed.

Lemma objectValues_LintField_read_only f :
  read_only (Lint aip25146.objectValues f).
Proof. unfold aip25146.objectValues. simpl. frame. Qed.

Lemma unspecified_OnlyIf_read_only v :
  read_only (applies aip0126.unspecified v).
Proof.
  unfold applies, aip0126.unspecified, aip0126.isFirstEnumValue. simpl. frame.
Qed.

Lemma unspecified_LintEnumValue_read_only v :
  read_only (Lint aip0126.unspecified v).
Proof. unfold aip0126.unspecified. simpl. frame. Qed.

(** C8.  No check writes to the store of descriptors: whatever the store and
    the argument, and whether the check returns or panics, the store after a
    helper of [common_lints.go], after the guard or the check of
    [object-values], or after the guard or the check of [unspecified], is
    the store before it.  The descriptor argument and every other node are
    therefore unchanged, and the result of the call is its only output. *)
Theorem checks_leave_declarations_unchanged :
  (forall m field, read_only (utils.LintFieldPresent m field))
  /\ (forall f, read_only (utils.LintSingularStringField f))
  /\ (forall f, read_only (utils.LintSingularBoolField f))
  /\ (forall f, read_only (utils.LintFieldMask f))
  /\ (forall field m,
        read_only (utils.LintFieldPresentAndSingularString field m))
  /\ (forall f, read_only (utils.LintRequiredField f))
  /\ (forall f, read_only (utils.LintOutputOnlyField f))
  /\ (forall f, read_only (utils.LintFieldResourceReference f))
  /\ (forall m, read_only (utils.LintNoHTTPBody m))
  /\ (forall m, read_only (utils.LintWildcardHTTPBody m))
  /\ (forall verb m, read_only (utils.LintHTTPMethod verb m))
  /\ (forall m, read_only (utils.LintMethodHasMatchingRequestName m))
  /\ (forall m, read_only (utils.LintMethodHasMatchingResponseName m))
  /\ (forall m, read_only (utils.LintHTTPURIHasParentVariable m))
  /\ (forall m v, read_only (utils.LintHTTPURIHasVariable m v))
  /\ (forall m n, read_only (utils.LintHTTPURIVariableCount m n))
  /\ (forall m, read_only (utils.LintHTTPURIHasNameVariable m))
  /\ (forall f, read_only (applies aip25146.objectValues f))
  /\ (forall f, read_only (Lint aip25146.objectValues f))
  /\ (forall v, read_only (applies aip0126.unspecified v))
  /\ (forall v, read_only (Lint aip0126.unspecified v)).
Proof.
  repeat split; intros.
  - apply LintFieldPresent_read_only.
  - apply lintSingularField_read_only.
  - apply lintSingularField_read_only.
  - apply LintFieldMask_read_only.
  - apply LintFieldPresentAndSingularString_read_only.
  - apply lintFieldBehavior_read_only.
  - apply lintFieldBehavior_read_only.
  - apply LintFieldResourceReference_read_only.
  - apply lintHTTPBody_read_only.
  - apply lintHTTPBody_read_only.
  - apply LintHTTPMethod_read_only.
  - apply LintMethodHasMatchingRequestName_read_only.
  - apply LintMethodHasMatchingResponseName_read_only.
  - apply LintHTTPURIHasVariable_read_only.
  - apply LintHTTPURIHasVariable_read_only.
  - apply LintHTTPURIVariableCount_read_only.
  - apply LintHTTPURIHasVariable_read_only.
  - apply objectValues_OnlyIf_read_only.
  - apply objectValues_LintField_read_only.
  - apply unspecified_OnlyIf_read_only.
  - apply unspecified_LintEnumValue_read_only.
Qed.

End frame.

(** ** The rule [core::25146::object-values] *)

Section object_values.
Context `{!Collaborators}.

(** What the guard and the check of the rule compute on a field whose file
    is at hand: the guard looks at the file and at the map value type, the
    check at the message type of the map value, and neither at anything
    else. *)
Lemma objectValues_OnlyIf_run (s : Store) (f fa : addr) fd file :
  s !! f = Some (NField fd) ->
  fld_file fd = Some fa -> s !! fa = Some (NFile file) ->
  run (applies aip25146.objectValues (Some f)) s =
  (Ok (negb (is_common_proto file) && bool_decide (fld_map_value fd <> None)), s).
Proof.
  intros Hf Hfile Hfa. go_unfold. go_lookup. rewrite Hfile. go_lookup.
  destruct (is_common_proto file); simpl; [reflexivity |]. go_lookup.
  reflexivity.
Qed.

Lemma objectValues_LintField_run (s : Store) (f va : addr) fd value :
  s !! f = Some (NField fd) ->
  fld_map_value fd = Some va -> s !! va = Some (NField value) ->
  run (Lint aip25146.objectValues (Some f)) s =
  (Ok (if decide (fld_msg_type value <> None)
       then [{| Message := "Avoid using objects as map values.";
                Suggestion := "";
                Descriptor := Some f;
                Location := FieldType (Some f) |}]
       else []), s).
Proof.
  intros Hf Hmv Hva. go_unfold. go_lookup. rewrite Hmv. go_lookup.
  destruct (decide _); reflexivity.
Qed.

(** Without its guard the check is not safe: on a field that is not a map
    it calls [GetMessageType] on [nil]. *)
Lemma objectValues_LintField_not_a_map (s : Store) (f : addr) fd :
  s !! f = Some (NField fd) -> fld_map_value fd = None ->
  run (Lint aip25146.objectValues (Some f)) s = (Panic NilDereference, s).
Proof. intros Hf Hmv. go_unfold. go_lookup. rewrite Hmv. reflexivity. Qed.

(** When the guard says yes, the field is a field with a map value type. *)
Lemma objectValues_OnlyIf_true (s s' : Store) (f : ptr) :
  run (applies aip25146.objectValues f) s = (Ok true, s') ->
  s' = s /\ exists a fd va,
    f = Some a /\ s !! a = Some (NField fd) /\ fld_map_value fd = Some va.
Proof.
  intros Hrun.
  pose proof (objectValues_OnlyIf_read_only f s) as Hs.
  rewrite Hrun in Hs. simpl in Hs. subst s'. split; [reflexivity |].
  revert Hrun. go_unfold.
  destruct f as [a |]; [| discriminate].
  destruct (s !! a) as [[| | fd | | | |] |] eqn:Ha; try discriminate.
  destruct (fld_file fd) as [fa |]; [| discriminate].
  destruct (s !! fa) as [[file | | | | | |] |]; try discriminate.
  destruct (negb (is_common_proto file)); [| discriminate].
  go_lookup.
  intros Hrun. injection Hrun as Hrun. apply bool_decide_eq_true in Hrun.
  destruct (fld_map_value fd) as [va |] eqn:Hmv; [| contradiction].
  eauto 10.
Qed.

(** C1.  A map field whose value type is a message type, in a file that is
    not a common proto: the guard of [core::25146::object-values] says yes
    and the check returns exactly one Problem, whose Descriptor is the field
    and whose Location is the type span of the field. *)
Theorem object_values_reports_map_of_messages
    (s : Store) (f fa va : addr) fd file value :
  s !! f = Some (NField fd) ->
  fld_file fd = Some fa -> s !! fa = Some (NFile file) ->
  is_common_proto file = false ->
  fld_map_value fd = Some va -> s !! va = Some (NField value) ->
  fld_msg_type value <> None ->
  run (applies aip25146.objectValues (Some f)) s = (Ok true, s)
  /\ run (Lint aip25146.objectValues (Some f)) s =
     (Ok [{| Message := "Avoid using objects as map values.";
             Suggestion := "";
             Descriptor := Some f;
             Location := FieldType (Some f) |}], s).
Proof.
  intros Hf Hfile Hfa Hcommon Hmv Hva Hmt. split.
  - rewrite (objectValues_OnlyIf_run s f fa fd file Hf Hfile Hfa).
    rewrite Hcommon, Hmv. reflexivity.
  - rewrite (objectValues_LintField_run s f va fd value Hf Hmv Hva).
    destruct (decide _); [reflexivity | contradiction].
Qed.

(** C2.  The outcome of the rule is a function of whether the file is a
    common proto and of the map value type alone.  The field-behavior
    annotations play no part: a field that [LintOutputOnlyField] accepts as
    [OUTPUT_ONLY] is reported like any other, although the documentation of
    the rule says that output-only fields are excluded. *)
Theorem object_values_ignores_field_behavior
    (s : Store) (f fa va : addr) fd file value :
  s !! f = Some (NField fd) ->
  fld_file fd = Some fa -> s !! fa = Some (NFile file) ->
  fld_map_value fd = Some va -> s !! va = Some (NField value) ->
  (run (applies aip25146.objectValues (Some f)) s =
     (Ok (negb (is_common_proto file)), s)
   /\ run (Lint aip25146.objectValues (Some f)) s =
      (Ok (if decide (fld_msg_type value <> None)
           then [{| Message := "Avoid using objects as map values.";
                    Suggestion := "";
                    Descriptor := Some f;
                    Location := FieldType (Some f) |}]
           else []), s))
  /\ ("OUTPUT_ONLY" ∈ field_behavior_set fd ->
      is_common_proto file = false -> fld_msg_type value <> None ->
      run (utils.LintOutputOnlyField (Some f)) s = (Ok None, s)
      /\ run (applies aip25146.objectValues (Some f)) s = (Ok true, s)
      /\ run (Lint aip25146.objectValues (Some f)) s =
         (Ok [{| Message := "Avoid using objects as map values.";
                 Suggestion := "";
                 Descriptor := Some f;
                 Location := FieldType (Some f) |}], s)).
Proof.
  intros Hf Hfile Hfa Hmv Hva.
  pose proof (objectValues_OnlyIf_run s f fa fd file Hf Hfile Hfa) as Hguard.
  pose proof (objectValues_LintField_run s f va fd value Hf Hmv Hva) as Hcheck.
  rewrite Hmv in Hguard. simpl in Hguard. rewrite andb_true_r in Hguard.
  split; [split; assumption |].
  intros Hout Hcommon Hmt. repeat split.
  - unfold utils.LintOutputOnlyField, utils.lintFieldBehavior. go_unfold.
    go_lookup. rewrite bool_decide_eq_true_2 by assumption. reflexivity.
  - rewrite Hguard, Hcommon. reflexivity.
  - rewrite Hcheck. destruct (decide _); [reflexivity | contradiction].
Qed.

(** C3.  Once the guard has said yes, the check is well defined: the map
    value type of the field is not nil, so the check does not dereference a
    nil map value type, and in a well-typed store it returns a list of
    Problems. *)
Theorem object_values_check_is_total_under_guard (s s' : Store) (f : ptr) :
  run (applies aip25146.objectValues f) s = (Ok true, s') ->
  (exists mv, run (Field.GetMapValueType f) s' = (Ok (Some mv), s'))
  /\ fst (run (Lint aip25146.objectValues f) s') <> Panic NilDereference
  /\ (well_typed s' ->
      exists problems,
        run (Lint aip25146.objectValues f) s' = (Ok problems, s')).
Proof.
  intros Hrun. apply objectValues_OnlyIf_true in Hrun
    as [-> (a & fd & va & -> & Ha & Hmv)].
  split; [| split].
  - exists va. go_unfold. go_lookup. rewrite Hmv. reflexivity.
  - go_unfold. go_lookup. rewrite Hmv.
    destruct (s !! va) as [[| | value | | | |] |]; simpl; try discriminate.
    destruct (decide _); discriminate.
  - intros Hwt. pose proof (Hwt a _ Ha) as Hok. simpl in Hok.
    apply andb_true_iff in Hok as [_ Hva]. rewrite Hmv in Hva. simpl in Hva.
    destruct (s !! va) as [n |] eqn:Hn; [| discriminate].
    apply bool_decide_eq_true in Hva.
    destruct n as [| | value | | | |]; try discriminate.
    rewrite (objectValues_LintField_run s a va fd value Ha Hmv Hn). eauto.
Qed.

End object_values.

(** ** The rule [unspecified] of [aip0126] *)

Lemma ToUpper_app (a b : string) :
  strings.ToUpper (a +:+ b) = strings.ToUpper a +:+ strings.ToUpper b.
Proof.
  induction a as [| c a IH].
  - reflexivity.
  - change (String c a +:+ b) with (String c (a +:+ b)).
    simpl. rewrite IH. reflexivity.
Qed.

Section unspecified.
Context `{!Collaborators}.

(** The wanted name is the upper-cased snake case of the enum's name,
    followed by [_UNSPECIFIED]: upper-casing the suffix changes nothing. *)
Lemma wanted_suffix (enum : string) :
  aip0126.wanted enum
  = strings.ToUpper (snake_case enum) +:+ "_UNSPECIFIED".
Proof. unfold aip0126.wanted. rewrite ToUpper_app. reflexivity. Qed.

(** C4.  On an enum value [v] of an enum [e]: the guard of the rule says yes
    exactly when the number of [v] is 0; the check returns no Problem when
    the name of [v] is the upper-cased snake case of the name of [e]
    followed by [_UNSPECIFIED], and otherwise exactly one Problem, whose
    Suggestion is that wanted name, whose Descriptor is [v] and whose
    Location is the name span of [v]. *)
Theorem unspecified_checks_first_value_name
    (s : Store) (v ea : addr) value enum :
  s !! v = Some (NEnumValue value) ->
  val_enum value = Some ea -> s !! ea = Some (NEnum enum) ->
  let want := strings.ToUpper (snake_case (enum_name enum)) +:+ "_UNSPECIFIED" in
  run (applies aip0126.unspecified (Some v)) s
  = (Ok (bool_decide (val_number value = 0%Z)), s)
  /\ run (Lint aip0126.unspecified (Some v)) s
     = (Ok (if decide (val_name value = want) then []
            else [{| Message := "The first enum value should be " +:+ quote want;
                     Suggestion := want;
                     Descriptor := Some v;
                     Location := DescriptorName (Some v) |}]), s).
Proof.
  intros Hv Henum Hea want. subst want. rewrite <- wanted_suffix. split.
  - go_unfold. go_lookup. reflexivity.
  - go_unfold. go_lookup. rewrite Henum. go_lookup.
    destruct (decide (val_name value ≠ _)) as [Hne | Heq];
      destruct (decide (val_name value = _)) as [Heq' | Hne'];
      try reflexivity; try contradiction.
Qed.

End unspecified.

(** ** One Problem for the HTTP body, however many rules are off *)

Section http_body.
Context `{!Collaborators}.

Lemma lintHTTPBody_range_run (s : Store) (m : addr) md (want msg : string)
    (httpRules : list HTTPRule) :
  s !! m = Some (NMethod md) ->
  run (utils.lintHTTPBody_range (Some m) want msg httpRules) s =
  (Ok (if decide (Forall (fun r => Body r = want) httpRules) then None
       else Some (utils.NewLintErr [{|
         Message := "The `" +:+ mth_name md +:+ "` method should " +:+ msg
                    +:+ " HTTP body.";
         Suggestion := "";
         Descriptor := Some m;
         Location := MethodHTTPRule (Some m) |}])), s).
Proof.
  intros Hm. induction httpRules as [| r rest IH];
    cbn [utils.lintHTTPBody_range].
  - destruct (decide _) as [_ | Hno]; [reflexivity |].
    exfalso. apply Hno. constructor.
  - destruct (decide (Body r ≠ want)) as [Hne | Heq].
    + go_unfold. go_lookup.
      destruct (decide (Forall _ (r :: rest))) as [Hall | _]; [| reflexivity].
      inversion Hall; contradiction.
    + apply dec_stable in Heq. rewrite IH.
      destruct (decide (Forall _ rest)) as [Hall | Hno];
        destruct (decide (Forall _ (r :: rest))) as [Hall' | Hno'];
        try reflexivity.
      * exfalso. apply Hno'. constructor; assumption.
      * exfalso. apply Hno. inversion Hall'; assumption.
Qed.

Lemma lintHTTPBody_run (s : Store) (m : addr) md (want msg : string) :
  s !! m = Some (NMethod md) ->
  run (utils.lintHTTPBody (Some m) want msg) s =
  (Ok (if decide (Forall (fun r => Body r = want) (http_rules_of md))
       then None
       else Some (utils.NewLintErr [{|
         Message := "The `" +:+ mth_name md +:+ "` method should " +:+ msg
                    +:+ " HTTP body.";
         Suggestion := "";
         Descriptor := Some m;
         Location := MethodHTTPRule (Some m) |}])), s).
Proof.
  intros Hm. unfold utils.lintHTTPBody.
  rewrite (run_bind_ok _ _ s s (http_rules_of md)).
  - apply lintHTTPBody_range_run. assumption.
  - go_unfold. go_lookup. reflexivity.
Qed.

(** C7.  On a method [m] and for any wanted body, [lintHTTPBody] returns nil
    exactly when every HTTP rule of [m] has the wanted body, and otherwise
    an error that carries exactly one Problem, on [m] and its HTTP
    annotation, however many HTTP rules have another body; so do
    [LintNoHTTPBody], which wants the empty body, and
    [LintWildcardHTTPBody], which wants ["*"]. *)
Theorem http_body_lints_report_one_problem (s : Store) (m : addr) md :
  s !! m = Some (NMethod md) ->
  (forall want msg,
     run (utils.lintHTTPBody (Some m) want msg) s =
     (Ok (if decide (Forall (fun r => Body r = want) (http_rules_of md))
          then None
          else Some (utils.NewLintErr [{|
            Message := "The `" +:+ mth_name md +:+ "` method should " +:+ msg
                       +:+ " HTTP body.";
            Suggestion := "";
            Descriptor := Some m;
            Location := MethodHTTPRule (Some m) |}])), s))
  /\ (exists err,
     run (utils.LintNoHTTPBody (Some m)) s = (Ok err, s)
     /\ (err = None <-> Forall (fun r => Body r = "") (http_rules_of md))
     /\ (forall le, err = Some le ->
         utils.Problems le = [{|
           Message := "The `" +:+ mth_name md
                      +:+ "` method should not have an HTTP body.";
           Suggestion := "";
           Descriptor := Some m;
           Location := MethodHTTPRule (Some m) |}]))
  /\ (exists err,
        run (utils.LintWildcardHTTPBody (Some m)) s = (Ok err, s)
        /\ (err = None <-> Forall (fun r => Body r = "*") (http_rules_of md))
        /\ (forall le, err = Some le ->
            utils.Problems le = [{|
              Message := "The `" +:+ mth_name md +:+ "` method should use "
                         +:+ dquote +:+ "*" +:+ dquote
                         +:+ " as the HTTP body.";
              Suggestion := "";
              Descriptor := Some m;
              Location := MethodHTTPRule (Some m) |}])).
Proof.
  intros Hm. unfold utils.LintNoHTTPBody, utils.LintWildcardHTTPBody.
  split; [intros want msg; apply lintHTTPBody_run; exact Hm |]. split.
  - eexists. split; [apply lintHTTPBody_run; exact Hm |].
    destruct (decide _) as [Hall | Hno]; split.
    + tauto.
    + discriminate.
    + split; [discriminate | contradiction].
    + intros le [= <-]. reflexivity.
  - eexists. split; [apply lintHTTPBody_run; exact Hm |].
    destruct (decide _) as [Hall | Hno]; split.
    + tauto.
    + discriminate.
    + split; [discriminate | contradiction].
    + intros le [= <-]. reflexivity.
Qed.

End http_body.

(** ** A check does not remember *)

Section purity.
Context `{!Collaborators}.

(** C6.  The result of a check of [object-values] or of [unspecified] on a
    declaration is the same the first time and any later time: it is the
    same after the same check has run on the same declaration, and after
    any check of either rule has run on any declaration.  Nothing is
    carried from one invocation to the next. *)
Theorem checks_do_not_depend_on_earlier_invocations (r r' : Rule) :
  In r [aip25146.objectValues; aip0126.unspecified] ->
  In r' [aip25146.objectValues; aip0126.unspecified] ->
  forall (s : Store) (d d' : ptr),
    fst (run (Lint r d) (snd (run (Lint r d) s))) = fst (run (Lint r d) s)
    /\ fst (run (Lint r d) (snd (run (Lint r' d') s)))
       = fst (run (Lint r d) s).
Proof.
  intros Hr Hr' s d d'.
  assert (forall x q, In x [aip25146.objectValues; aip0126.unspecified] ->
                      read_only (Lint x q)) as Hro.
  { intros x q [<- | [<- | []]].
    - apply objectValues_LintField_read_only.
    - apply unspecified_LintEnumValue_read_only. }
  split; rewrite read_only_then; auto.
Qed.

End purity.

(** ** Rule names *)

Section rule_names.
Context `{!Collaborators}.

(** C5.  The textual form of a rule name is its namespace, its number and
    its short name, joined by ["::"]; the rule built with
    [NewRuleName(25146, "object-values")] reads
    [core::25146::object-values]; and a directive with a justification
    suppresses that rule when it names this string, as the directive of the
    rule's documentation does, and not when it names another rule. *)
Theorem object_values_rule_name_text :
  (forall n : RuleName,
     text n = Namespace n +:+ "::" +:+ pretty (Number n) +:+ "::"
              +:+ ShortName n)
  /\ Name aip25146.objectValues = NewRuleName 25146 "object-values"
  /\ text (Name aip25146.objectValues) = "core::25146::object-values"
  /\ (forall why : string,
        suppresses (Name aip25146.objectValues)
          (Directive {| targets := [RulePath "core::25146::object-values"];
                        justification := why |})
        = negb (bool_decide (why = "")))
  /\ (forall why : string,
        suppresses (Name aip25146.objectValues)
          (Directive {| targets := [RulePath "core::0126::unspecified"];
                        justification := why |})
        = false)
  /\ example.parse_block example.disable_object_values
     = [Directive {| targets := [RulePath "core::25146::object-values"];
                     justification := "We need to do this because reasons." |}].
Proof.
  split; [intros [ns num short]; reflexivity |].
  split; [reflexivity |].
  split; [reflexivity |].
  split; [intros why; unfold suppresses; destruct (bool_decide _); reflexivity |].
  split; [intros why; unfold suppresses; destruct (bool_decide _); reflexivity |].
  reflexivity.
Qed.

End rule_names.

(** ** The registry *)

Lemma find_snoc {A} (P : A -> bool) (l : list A) (x : A) :
  List.find P l = None -> P x = true -> List.find P (l ++ [x]) = Some x.
Proof.
  intros Hnone Hx. induction l as [| y l IH]; simpl in *.
  - rewrite Hx. reflexivity.
  - destruct (P y); [discriminate | auto].
Qed.

Lemma find_app_Some {A} (P : A -> bool) (l l' : list A) (x : A) :
  List.find P l = Some x -> List.find P (l ++ l') = Some x.
Proof.
  intros Hx. induction l as [| y l IH]; simpl in *; [discriminate |].
  destruct (P y); auto.
Qed.

(** A registration that succeeds appends the rule. *)
Lemma Register_ok (r : Rule) (reg reg1 : Registry) :
  Register r reg = (None, reg1) ->
  Lookup (Name r) reg = None /\ frozen reg = false
  /\ reg1 = {| rules := rules reg ++ [r]; frozen := false |}.
Proof.
  unfold Register. destruct (Lookup (Name r) reg); [discriminate |].
  destruct (frozen reg) eqn:Hfrozen; [discriminate |].
  intros [= <-]. auto.
Qed.

(** A name that is taken stays taken, by the same rule, whatever is
    registered later and whether or not that succeeds. *)
Lemma Lookup_Register_stable (name : RuleName) (r r' : Rule) (reg : Registry) :
  Lookup name reg = Some r -> Lookup name (snd (Register r' reg)) = Some r.
Proof.
  intros Hr. unfold Register.
  destruct (Lookup (Name r') reg); [assumption |].
  destruct (frozen reg); [assumption |].
  simpl. unfold Lookup in *. simpl. apply find_app_Some. assumption.
Qed.

(** Once traversal has started, a rule with a new name is refused. *)
Lemma Register_frozen (r : Rule) (reg : Registry) :
  Lookup (Name r) (Freeze reg) = None ->
  Register r (Freeze reg) = (Some RegistryFrozen, Freeze reg).
Proof. intros Hfree. unfold Register. rewrite Hfree. reflexivity. Qed.

(** C9.  When [Register] has accepted a rule, registering a rule with the
    same name fails with [DuplicateRuleName] and leaves the registry as the
    first registration left it: [Lookup] of the name still returns the first
    rule. *)
Theorem register_twice_keeps_first (r1 r2 : Rule) (reg reg1 : Registry) :
  Register r1 reg = (None, reg1) ->
  Name r2 = Name r1 ->
  Register r2 reg1 = (Some DuplicateRuleName, reg1)
  /\ Lookup (Name r1) (snd (Register r2 reg1)) = Some r1.
Proof.
  intros Hfirst Hname.
  apply Register_ok in Hfirst as (Hfree & _ & ->).
  assert (Lookup (Name r1)
            {| rules := rules reg ++ [r1]; frozen := false |} = Some r1)
    as Hfound.
  { unfold Lookup in *. simpl. apply find_snoc; [assumption |].
    apply bool_decide_eq_true. reflexivity. }
  assert (Register r2 {| rules := rules reg ++ [r1]; frozen := false |}
          = (Some DuplicateRuleName,
             {| rules := rules reg ++ [r1]; frozen := false |})) as Hsecond.
  { unfold Register. rewrite Hname, Hfound. reflexivity. }
  rewrite Hsecond. split; [reflexivity | assumption].
Qed.

(** ** Suppression and traversal *)

(** Induction on a declaration, with the property at hand for all of its
    children. *)
Lemma Declaration_tree_ind (P : Declaration -> Prop) :
  (forall k p comments children,
     Forall P children -> P (Decl k p comments children)) ->
  forall d, P d.
Proof.
  intros Hnode. fix IH 1. intros [k p comments children].
  apply Hnode. induction children as [| c rest IHrest]; constructor.
  - apply IH.
  - apply IHrest.
Qed.

Lemma resolve_snoc (root t c : Declaration) (here : DeclRef) (i : nat) :
  resolve root here = Some t -> decl_children t !! i = Some c ->
  resolve root (here ++ [i]) = Some c.
Proof.
  revert root. induction here as [| j here IH]; intros root Hhere Hc; simpl in *.
  - injection Hhere as ->. rewrite Hc. reflexivity.
  - destruct (decl_children root !! j); [| discriminate]. apply IH; assumption.
Qed.

(** The comments in scope at a declaration are in scope below it. *)
Lemma scope_comments_below (root : Declaration) (d rest : DeclRef) :
  exists more, scope_comments root (d ++ rest) = scope_comments root d ++ more.
Proof.
  revert root. induction d as [| i d IH]; intros root; simpl.
  - rewrite app_nil_r. destruct rest; simpl; eauto.
  - destruct (decl_children root !! i) as [c |].
    + destruct (IH c) as [more ->]. exists more. rewrite app_assoc. reflexivity.
    + exists []. rewrite !app_nil_r. reflexivity.
Qed.

Section engine.
Context `{!DirectiveSyntax}.
Variables (root : Declaration) (reg : Registry).

(** Suppression is inherited: what is suppressed at a declaration is
    suppressed at each of its descendants. *)
Lemma IsSuppressed_within (d d' : DeclRef) (name : RuleName) :
  within d d' ->
  IsSuppressed root d name = true -> IsSuppressed root d' name = true.
Proof.
  intros [rest ->]. unfold IsSuppressed.
  destruct (scope_comments_below root d rest) as [more ->].
  rewrite existsb_app. intros ->. reflexivity.
Qed.

Lemma walk_unfold (here : DeclRef) (d : Declaration) (s : Store) :
  walk root reg here d s =
  let '(own, s1) := visit root reg here d s in
  let '(below, s2) :=
    walk_children root reg here 0 (decl_children d) s1 in
  (own ++ below, s2).
Proof.
  destruct d as [k p comments children]. cbn [walk decl_children].
  destruct (visit root reg here (Decl k p comments children) s) as [own s1].
  match goal with
  | |- (let '(below, s2) := ?each 0%nat children s1 in _) = _ =>
      assert (forall cs i s0,
                each i cs s0 = walk_children root reg here i cs s0) as ->
  end; [| reflexivity].
  induction cs as [| c rest IH]; intros i s0; [reflexivity |].
  cbn [walk_children]. cbn iota beta.
  destruct (walk root reg (here ++ [i]) c s0) as [e1 s'].
  rewrite IH. reflexivity.
Qed.

End engine.

Section provenance.
Context `{!DirectiveSyntax}.
Variables (root : Declaration) (reg : Registry).

Lemma dispatch_accounted (here : DeclRef) (d : ptr) (r : Rule) (s : Store) :
  forall x, In x (fst (dispatch root here d r s)) ->
  forall name p, x = Finding name p ->
    IsSuppressed root here name = false /\ name = Name r /\ reports r d p.
Proof.
  unfold dispatch.
  destruct (run (applies r d) s) as [[[|] | e] s1]; simpl.
  - destruct (IsSuppressed root here (Name r)) eqn:Hsup; simpl.
    + intros x [].
    + destruct (run (Lint r d) s1) as [[problems | e] s2] eqn:Hrun; simpl.
      * intros x Hin name p ->.
        apply in_map_iff in Hin as (p' & [= <- <-] & Hin).
        split; [assumption |]. split; [reflexivity |].
        exists s1, s2, problems. auto.
      * intros x [<- | []] name p. discriminate.
  - intros x [].
  - intros x [<- | []] name p. discriminate.
Qed.

Lemma dispatch_all_accounted (here : DeclRef) (d : ptr) (rs : list Rule) :
  forall s x, In x (fst (dispatch_all root here d rs s)) ->
  forall name p, x = Finding name p ->
    IsSuppressed root here name = false
    /\ exists r, In r rs /\ Name r = name /\ reports r d p.
Proof.
  induction rs as [| r rest IH]; intros s x; simpl; [intros [] |].
  destruct (dispatch root here d r s) as [found s1] eqn:Hfound.
  destruct (dispatch_all root here d rest s1) as [more s2] eqn:Hmore.
  simpl. intros Hin name p Hx. apply in_app_iff in Hin as [Hin | Hin].
  - pose proof (dispatch_accounted here d r s x) as Hone.
    rewrite Hfound in Hone. destruct (Hone Hin name p Hx) as (? & ? & ?).
    split; [assumption |]. exists r. auto.
  - specialize (IH s1 x). rewrite Hmore in IH.
    destruct (IH Hin name p Hx) as (? & r' & ? & ? & ?).
    split; [assumption |]. exists r'. auto.
Qed.

Lemma malformed_directives_no_finding (t : Declaration) (x : Diagnostic) :
  In x (malformed_directives t) -> forall name p, x <> Finding name p.
Proof.
  unfold malformed_directives. intros Hin name p ->.
  apply in_flat_map in Hin as (block & _ & Hin).
  apply in_map_iff in Hin as (? & [=] & _).
Qed.

Lemma visit_accounted (here : DeclRef) (t : Declaration) (s : Store) :
  resolve root here = Some t ->
  List.Forall (accounted root reg) (fst (visit root reg here t s)).
Proof.
  intros Hhere. unfold visit.
  pose proof (dispatch_all_accounted here (decl_ptr t)
                (RulesForKind (decl_kind t) reg) s) as Hall.
  destruct (dispatch_all root here (decl_ptr t) _ s) as [found s1].
  simpl in *. apply List.Forall_forall. intros e Hin.
  apply in_map_iff in Hin as (x & <- & Hin).
  exists t. split; [assumption |]. simpl. intros name p ->.
  apply in_app_iff in Hin as [Hin | Hin].
  - exfalso. exact (malformed_directives_no_finding t _ Hin name p eq_refl).
  - destruct (Hall _ Hin name p eq_refl) as (Hsup & r & Hr & Hname & Hrep).
    split; [assumption |]. exists r.
    unfold RulesForKind in Hr. apply filter_In in Hr as [Hr Hkind].
    apply bool_decide_eq_true in Hkind. auto.
Qed.

Lemma walk_accounted (t : Declaration) :
  forall here s,
    resolve root here = Some t ->
    List.Forall (accounted root reg) (fst (walk root reg here t s)).
Proof.
  induction t as [k p comments children IH] using Declaration_tree_ind.
  intros here s Hhere. rewrite walk_unfold.
  pose proof (visit_accounted here _ s Hhere) as Hown.
  destruct (visit root reg here (Decl k p comments children) s) as [own s1].
  simpl in Hown. cbn [decl_children].
  assert (forall cs i s0,
            List.Forall
              (fun c => forall here s, resolve root here = Some c ->
                 List.Forall (accounted root reg) (fst (walk root reg here c s)))
              cs ->
            (forall j c, cs !! j = Some c ->
                         resolve root (here ++ [i + j]%nat) = Some c) ->
            List.Forall (accounted root reg)
                        (fst (walk_children root reg here i cs s0))) as Hbelow.
  { induction cs as [| c rest IHcs]; intros i s0 Hcs Hat; [constructor |].
    cbn [walk_children].
    inversion Hcs as [| ? ? Hc Hrest]; subst.
    specialize (Hc (here ++ [i]) s0).
    destruct (walk root reg (here ++ [i]) c s0) as [e1 s'].
    specialize (IHcs (S i) s' Hrest).
    destruct (walk_children root reg here (S i) rest s') as [e2 s''].
    simpl in *. apply List.Forall_app. split.
    - apply Hc. specialize (Hat 0%nat c eq_refl).
      rewrite Nat.add_0_r in Hat. exact Hat.
    - apply IHcs. intros j c' Hj. specialize (Hat (S j) c' Hj).
      rewrite Nat.add_succ_r in Hat. exact Hat. }
  specialize (Hbelow children 0%nat s1 IH).
  destruct (walk_children root reg here 0 children s1) as [below s2].
  simpl in *. apply List.Forall_app. split; [assumption |].
  apply Hbelow. intros j c Hj. simpl.
  apply (resolve_snoc root (Decl k p comments children)); assumption.
Qed.

(** Every emission of a run is accounted for. *)
Lemma emissions_accounted (s : Store) :
  forall e, In e (fst (emissions root reg s)) -> accounted root reg e.
Proof.
  intros e. unfold emissions.
  pose proof (walk_accounted root [] s eq_refl) as Hwalk.
  destruct (walk root reg [] root s) as [found s']. simpl in *.
  intros Hin. rewrite List.Forall_forall in Hwalk. apply Hwalk.
  apply (Permutation_in e (merge_sort_Permutation emission_le found)).
  exact Hin.
Qed.

(** Nothing tagged with a suppressed name is emitted for a declaration in
    the suppressed subtree. *)
Lemma suppressed_emits_nothing (s : Store) (name : RuleName) (d : DeclRef) :
  IsSuppressed root d name = true ->
  forall e,
    In e (fst (emissions root reg s)) ->
    RuleID (em_diag e) = Some name ->
    ~ within d (em_decl e).
Proof.
  intros Hsup e Hin Htag Hwithin.
  destruct (emissions_accounted s e Hin) as (t & _ & Hacc).
  destruct (em_diag e) as [name' p | |] eqn:Hdiag; try discriminate.
  injection Htag as ->.
  destruct (Hacc _ p eq_refl) as [Hfree _].
  rewrite (IsSuppressed_within root d (em_decl e) name Hwithin Hsup) in Hfree.
  discriminate.
Qed.

(** Nor is any Problem tagged with that name about such a declaration, when
    the rules of that name report on the declaration they are given. *)
Lemma suppressed_reports_nothing (s : Store) (name : RuleName) (d : DeclRef) :
  IsSuppressed root d name = true ->
  distinct_declarations root ->
  (forall r, In r (rules reg) -> Name r = name -> reports_own_declaration r) ->
  forall p d' t,
    In (Finding name p) (Run root reg s) ->
    within d d' -> resolve root d' = Some t ->
    Descriptor p <> decl_ptr t.
Proof.
  intros Hsup Hdistinct Hown p d' t Hin Hwithin Hd' Hptr.
  unfold Run in Hin. apply in_map_iff in Hin as (e & Hdiag & Hin).
  destruct (emissions_accounted s e Hin) as (t' & He & Hacc).
  destruct (Hacc _ p Hdiag) as (_ & r' & Hr' & Hname & _ & Hrep).
  apply (Hown r' Hr' Hname) in Hrep.
  assert (em_decl e = d') as Hsame.
  { apply (Hdistinct _ _ t' t He Hd'). congruence. }
  apply (suppressed_emits_nothing s name d Hsup e Hin).
  - rewrite Hdiag. reflexivity.
  - rewrite Hsame. exact Hwithin.
Qed.

(** C10.  If the rule named [Name r] is suppressed at declaration [d], a run
    emits no Problem tagged [Name r] for [d] or for a descendant of [d],
    whatever the registry; and when the rules of that name report on the
    declaration they are given, as the checks above do, and no descriptor
    stands at two places of the tree, no Problem tagged [Name r] in the
    output of [Run] has [d] or a descendant of [d] as its Descriptor. *)
Theorem suppression_monotonicity (s : Store) (r : Rule) (d : DeclRef) :
  IsSuppressed root d (Name r) = true ->
  (forall e,
     In e (fst (emissions root reg s)) ->
     RuleID (em_diag e) = Some (Name r) ->
     ~ within d (em_decl e))
  /\ (distinct_declarations root ->
      (forall r', In r' (rules reg) -> Name r' = Name r ->
                  reports_own_declaration r') ->
      forall p d' t,
        In (Finding (Name r) p) (Run root reg s) ->
        within d d' -> resolve root d' = Some t ->
        Descriptor p <> decl_ptr t).
Proof.
  intros Hsup. split.
  - apply suppressed_emits_nothing. exact Hsup.
  - apply suppressed_reports_nothing. exact Hsup.
Qed.

End provenance.

(** ** A run leaves the declarations as it found them, and is sorted *)

Section run_frame.
Context `{!DirectiveSyntax}.
Variables (root : Declaration) (reg : Registry).
Hypothesis rules_read_only : List.Forall rule_read_only (rules reg).

Lemma dispatch_read_only (here : DeclRef) (d : ptr) (r : Rule) (s : Store) :
  rule_read_only r -> snd (dispatch root here d r s) = s.
Proof.
  intros [Hguard Hcheck]. unfold dispatch.
  specialize (Hguard d s).
  destruct (run (applies r d) s) as [[[|] | e] s1]; simpl in *; subst s1;
    try reflexivity.
  destruct (IsSuppressed root here (Name r)); [reflexivity |].
  specialize (Hcheck d s).
  destruct (run (Lint r d) s) as [[problems | e] s2]; simpl in *; subst s2;
    reflexivity.
Qed.

Lemma dispatch_all_read_only (here : DeclRef) (d : ptr) (rs : list Rule) :
  List.Forall rule_read_only rs ->
  forall s, snd (dispatch_all root here d rs s) = s.
Proof.
  induction 1 as [| r rest Hr _ IH]; intros s; simpl; [reflexivity |].
  pose proof (dispatch_read_only here d r s Hr) as Hone.
  destruct (dispatch root here d r s) as [found s1]. simpl in Hone. subst s1.
  specialize (IH s).
  destruct (dispatch_all root here d rest s) as [more s2]. exact IH.
Qed.

Lemma visit_read_only (here : DeclRef) (t : Declaration) (s : Store) :
  snd (visit root reg here t s) = s.
Proof.
  unfold visit.
  assert (List.Forall rule_read_only (RulesForKind (decl_kind t) reg)) as Hrs.
  { apply List.Forall_forall. intros r Hr. apply filter_In in Hr as [Hr _].
    rewrite List.Forall_forall in rules_read_only. auto. }
  pose proof (dispatch_all_read_only here (decl_ptr t) _ Hrs s) as Hall.
  destruct (dispatch_all root here (decl_ptr t) _ s) as [found s1].
  exact Hall.
Qed.

Lemma walk_read_only (t : Declaration) :
  forall here s, snd (walk root reg here t s) = s.
Proof.
  induction t as [k p comments children IH] using Declaration_tree_ind.
  intros here s. rewrite walk_unfold.
  pose proof (visit_read_only here (Decl k p comments children) s) as Hown.
  destruct (visit root reg here (Decl k p comments children) s) as [own s1].
  simpl in Hown. subst s1. cbn [decl_children].
  assert (forall i s0, snd (walk_children root reg here i children s0) = s0)
    as Hbelow.
  { induction IH as [| c rest Hc _ IHrest]; intros i s0; [reflexivity |].
    cbn [walk_children]. specialize (Hc (here ++ [i]) s0).
    destruct (walk root reg (here ++ [i]) c s0) as [e1 s'].
    simpl in Hc. subst s'. specialize (IHrest (S i) s0).
    destruct (walk_children root reg here (S i) rest s0) as [e2 s''].
    exact IHrest. }
  specialize (Hbelow 0%nat s).
  destruct (walk_children root reg here 0 children s) as [below s2].
  exact Hbelow.
Qed.

(** With rules that only read, a whole run only reads. *)
Lemma emissions_read_only (s : Store) : snd (emissions root reg s) = s.
Proof.
  unfold emissions. pose proof (walk_read_only root [] s) as Hwalk.
  destruct (walk root reg [] root s) as [found s']. exact Hwalk.
Qed.

End run_frame.

Lemma path_leb_total (p q : DeclRef) :
  path_leb p q = true \/ path_leb q p = true.
Proof.
  revert q. induction p as [| i p IH]; intros [| j q]; simpl; auto.
  destruct (IH q) as [Hpq | Hqp];
    destruct (Nat.ltb_spec i j), (Nat.ltb_spec j i),
             (Nat.eqb_spec i j), (Nat.eqb_spec j i);
    simpl; auto; lia.
Qed.

Lemma emission_le_total : Total emission_le.
Proof.
  intros a b. unfold emission_le, emission_leb.
  destruct (decide (em_decl a = em_decl b)) as [Heq | Hne].
  - rewrite decide_True by (symmetry; exact Heq).
    destruct (String.leb_total (rule_key (em_diag a)) (rule_key (em_diag b)));
      auto.
  - rewrite decide_False by (intros Heq; apply Hne; symmetry; exact Heq).
    apply path_leb_total.
Qed.

(** The output of a run is in order. *)
Lemma emissions_sorted `{!DirectiveSyntax} (root : Declaration)
    (reg : Registry) (s : Store) :
  Sorted emission_le (fst (emissions root reg s)).
Proof.
  unfold emissions. destruct (walk root reg [] root s) as [found s'].
  apply (@Sorted_merge_sort _ emission_le _ emission_le_total).
Qed.

(** The two rules report on the declaration they are given. *)
Section own_declaration.
Context `{!Collaborators}.

Lemma objectValues_reports_own_declaration :
  reports_own_declaration aip25146.objectValues.
Proof.
  intros d p (s & s' & problems & Hrun & Hin). revert Hrun. go_unfold.
  destruct d as [a |]; [| discriminate].
  destruct (s !! a) as [[| | fd | | | |] |]; try discriminate.
  destruct (fld_map_value fd) as [va |]; [| discriminate].
  destruct (s !! va) as [[| | value | | | |] |]; try discriminate.
  destruct (decide _); intros [= <- <-].
  - destruct Hin as [<- | []]. reflexivity.
  - destruct Hin.
Qed.

Lemma unspecified_reports_own_declaration :
  reports_own_declaration aip0126.unspecified.
Proof.
  intros d p (s & s' & problems & Hrun & Hin). revert Hrun. go_unfold.
  destruct d as [a |]; [| discriminate].
  destruct (s !! a) as [[| | | | value | |] |] eqn:Ha; try discriminate.
  destruct (val_enum value) as [ea |]; [| discriminate].
  destruct (s !! ea) as [[| | | enum | | |] |]; try discriminate.
  go_lookup.
  destruct (decide _); intros [= <- <-].
  - destruct Hin as [<- | []]. reflexivity.
  - destruct Hin.
Qed.

End own_declaration.

(** ** The example schema *)

Section examples.
#[local] Existing Instance example.collaborators.
#[local] Existing Instance example.syntax.

Lemma example_heap_well_typed : well_typed example.heap.
Proof.
  assert (map_Forall (fun _ n => node_ok example.heap n = true) example.heap)
    as Hall by (apply (bool_decide_unpack _); vm_compute; exact I).
  intros a n Ha. exact (Hall a n Ha).
Qed.

Lemma example_distinct_declarations (comments : list string) :
  distinct_declarations (example.library comments).
Proof.
  intros d1 d2 t1 t2 H1 H2 Hptr.
  assert (forall d t, resolve (example.library comments) d = Some t ->
            In (d, decl_ptr t)
               [ ([], Some 1%positive); ([0%nat], Some 2%positive);
                 ([0%nat; 0%nat], Some 4%positive);
                 ([1%nat], Some 3%positive); ([2%nat], Some 17%positive);
                 ([2%nat; 0%nat], Some 18%positive);
                 ([3%nat], Some 8%positive);
                 ([3%nat; 0%nat], Some 9%positive);
                 ([3%nat; 1%nat], Some 10%positive);
                 ([4%nat], Some 16%positive);
                 ([4%nat; 0%nat], Some 13%positive) ]) as Hall.
  { intros d t Hd.
    repeat (let i := fresh "i" in
            destruct d as [| i d];
            [ simpl in Hd; injection Hd as <-; simpl; tauto
            | repeat (destruct i as [| i]; simpl in Hd; try discriminate) ]). }
  apply Hall in H1, H2. rewrite Hptr in H1. simpl in H1, H2.
  intuition congruence.
Qed.

End examples.

(** ** The theorems at work on the example schema *)

Section witnesses.
#[local] Existing Instance example.collaborators.
#[local] Existing Instance example.syntax.

(** Scenario A: no suppression comment; the two maps of messages and the
    misnamed first enum value are reported, in source order. *)
Example scenario_A :
  Run (example.library []) example.registry example.heap =
  [ Finding (NewRuleName 25146 "object-values")
      {| Message := "Avoid using objects as map values."; Suggestion := "";
         Descriptor := Some 4%positive;
         Location := FieldType (Some 4%positive) |};
    Finding (NewRuleName 25146 "object-values")
      {| Message := "Avoid using objects as map values."; Suggestion := "";
         Descriptor := Some 18%positive;
         Location := FieldType (Some 18%positive) |};
    Finding (NewRuleName 126 "unspecified")
      {| Message := "The first enum value should be "
                    +:+ dquote +:+ "BOOK_FORMAT_UNSPECIFIED" +:+ dquote;
         Suggestion := "BOOK_FORMAT_UNSPECIFIED";
         Descriptor := Some 9%positive;
         Location := DescriptorName (Some 9%positive) |} ].
Proof. vm_compute. reflexivity. Qed.

(** Scenario B: [Book] carries the directive of the documentation; its
    field is no longer reported, the field of [Shelf] still is. *)
Example scenario_B :
  List.filter (fun x => bool_decide (named_rule x
                                     = Some (NewRuleName 25146 "object-values")))
    (Run (example.library [example.disable_object_values])
         example.registry example.heap) =
  [ Finding (NewRuleName 25146 "object-values")
      {| Message := "Avoid using objects as map values."; Suggestion := "";
         Descriptor := Some 18%positive;
         Location := FieldType (Some 18%positive) |} ].
Proof. vm_compute. reflexivity. Qed.

(** Scenario C: a directive that names another rule changes nothing. *)
Example scenario_C :
  Run (example.library
         [" (-- api-linter: core::25146::other=disabled" +:+ example.newline
          +:+ "     aip.dev/not-precedent: Some reason. --)"])
      example.registry example.heap
  = Run (example.library []) example.registry example.heap.
Proof. vm_compute. reflexivity. Qed.

(** Scenario D: a directive without justification suppresses nothing and is
    itself reported. *)
Example scenario_D :
  Run (example.library [example.disable_unjustified])
      example.registry example.heap
  = MalformedSuppressionDirective (Some 2%positive) example.disable_unjustified
    :: Run (example.library []) example.registry example.heap.
Proof. vm_compute. reflexivity. Qed.

Lemma object_values_reports_map_of_messages_witness :
  example.heap !! 4%positive = Some (NField example.contents)
  /\ fld_file example.contents = Some 1%positive
  /\ example.heap !! 1%positive = Some (NFile example.library_proto)
  /\ is_common_proto example.library_proto = false
  /\ fld_map_value example.contents = Some 7%positive
  /\ example.heap !! 7%positive = Some (NField example.contents_value)
  /\ fld_msg_type example.contents_value <> None
  /\ run (applies aip25146.objectValues (Some 4%positive)) example.heap
     = (Ok true, example.heap)
  /\ run (Lint aip25146.objectValues (Some 4%positive)) example.heap
     = (Ok [{| Message := "Avoid using objects as map values.";
               Suggestion := "";
               Descriptor := Some 4%positive;
               Location := FieldType (Some 4%positive) |}], example.heap).
Proof.
  assert (example.heap !! 4%positive = Some (NField example.contents))
    as H1 by reflexivity.
  assert (fld_file example.contents = Some 1%positive) as H2 by reflexivity.
  assert (example.heap !! 1%positive = Some (NFile example.library_proto))
    as H3 by reflexivity.
  assert (is_common_proto example.library_proto = false) as H4 by reflexivity.
  assert (fld_map_value example.contents = Some 7%positive)
    as H5 by reflexivity.
  assert (example.heap !! 7%positive = Some (NField example.contents_value))
    as H6 by reflexivity.
  assert (fld_msg_type example.contents_value <> None) as H7 by discriminate.
  exact (conj H1 (conj H2 (conj H3 (conj H4 (conj H5 (conj H6 (conj H7
           (object_values_reports_map_of_messages example.heap
              4%positive 1%positive 7%positive _ _ _
              H1 H2 H3 H4 H5 H6 H7)))))))).
Defined.

Lemma object_values_ignores_field_behavior_witness :
  example.heap !! 4%positive = Some (NField example.contents)
  /\ fld_file example.contents = Some 1%positive
  /\ example.heap !! 1%positive = Some (NFile example.library_proto)
  /\ fld_map_value example.contents = Some 7%positive
  /\ example.heap !! 7%positive = Some (NField example.contents_value)
  /\ "OUTPUT_ONLY" ∈ field_behavior_set example.contents
  /\ run (utils.LintOutputOnlyField (Some 4%positive)) example.heap
     = (Ok None, example.heap)
  /\ run (applies aip25146.objectValues (Some 4%positive)) example.heap
     = (Ok true, example.heap)
  /\ run (Lint aip25146.objectValues (Some 4%positive)) example.heap
     = (Ok [{| Message := "Avoid using objects as map values.";
               Suggestion := "";
               Descriptor := Some 4%positive;
               Location := FieldType (Some 4%positive) |}], example.heap).
Proof.
  assert (example.heap !! 4%positive = Some (NField example.contents))
    as H1 by reflexivity.
  assert (fld_file example.contents = Some 1%positive) as H2 by reflexivity.
  assert (example.heap !! 1%positive = Some (NFile example.library_proto))
    as H3 by reflexivity.
  assert (fld_map_value example.contents = Some 7%positive)
    as H5 by reflexivity.
  assert (example.heap !! 7%positive = Some (NField example.contents_value))
    as H6 by reflexivity.
  assert ("OUTPUT_ONLY" ∈ field_behavior_set example.contents) as H8.
  { apply (bool_decide_unpack _). vm_compute. exact I. }
  assert (is_common_proto example.library_proto = false) as H4 by reflexivity.
  assert (fld_msg_type example.contents_value <> None) as H7 by discriminate.
  exact (conj H1 (conj H2 (conj H3 (conj H5 (conj H6 (conj H8
           (proj2 (object_values_ignores_field_behavior example.heap
                     4%positive 1%positive 7%positive _ _ _
                     H1 H2 H3 H5 H6) H8 H4 H7))))))).
Defined.

Lemma object_values_check_is_total_under_guard_witness :
  run (applies aip25146.objectValues (Some 4%positive)) example.heap
  = (Ok true, example.heap)
  /\ (exists mv, run (Field.GetMapValueType (Some 4%positive)) example.heap
                 = (Ok (Some mv), example.heap))
  /\ fst (run (Lint aip25146.objectValues (Some 4%positive)) example.heap)
     <> Panic NilDereference
  /\ (well_typed example.heap ->
      exists problems,
        run (Lint aip25146.objectValues (Some 4%positive)) example.heap
        = (Ok problems, example.heap)).
Proof.
  assert (run (applies aip25146.objectValues (Some 4%positive)) example.heap
          = (Ok true, example.heap)) as H1 by (vm_compute; reflexivity).
  exact (conj H1 (object_values_check_is_total_under_guard
                    example.heap example.heap (Some 4%positive) H1)).
Defined.

Lemma unspecified_checks_first_value_name_witness :
  example.heap !! 9%positive = Some (NEnumValue example.FORMAT_UNSPECIFIED)
  /\ val_enum example.FORMAT_UNSPECIFIED = Some 8%positive
  /\ example.heap !! 8%positive = Some (NEnum example.BookFormat)
  /\ run (applies aip0126.unspecified (Some 9%positive)) example.heap
     = (Ok true, example.heap)
  /\ run (Lint aip0126.unspecified (Some 9%positive)) example.heap
     = (Ok [{| Message := "The first enum value should be "
                          +:+ dquote +:+ "BOOK_FORMAT_UNSPECIFIED" +:+ dquote;
               Suggestion := "BOOK_FORMAT_UNSPECIFIED";
               Descriptor := Some 9%positive;
               Location := DescriptorName (Some 9%positive) |}], example.heap).
Proof.
  assert (example.heap !! 9%positive
          = Some (NEnumValue example.FORMAT_UNSPECIFIED)) as H1 by reflexivity.
  assert (val_enum example.FORMAT_UNSPECIFIED = Some 8%positive)
    as H2 by reflexivity.
  assert (example.heap !! 8%positive = Some (NEnum example.BookFormat))
    as H3 by reflexivity.
  exact (conj H1 (conj H2 (conj H3
           (unspecified_checks_first_value_name example.heap
              9%positive 8%positive _ _ H1 H2 H3)))).
Defined.

(** The conforming first value of [Genre] is not reported. *)
Example unspecified_accepts_GENRE_UNSPECIFIED :
  run (Lint aip0126.unspecified (Some 12%positive)) example.heap
  = (Ok [], example.heap).
Proof. vm_compute. reflexivity. Qed.

Lemma http_body_lints_report_one_problem_witness :
  example.heap !! 13%positive = Some (NMethod example.GetBook)
  /\ ~ Forall (fun r => Body r = "") (http_rules_of example.GetBook)
  /\ exists err,
       run (utils.LintNoHTTPBody (Some 13%positive)) example.heap
       = (Ok err, example.heap)
       /\ (err = None
           <-> Forall (fun r => Body r = "") (http_rules_of example.GetBook))
       /\ (forall le, err = Some le ->
           utils.Problems le = [{|
             Message := "The `" +:+ mth_name example.GetBook
                        +:+ "` method should not have an HTTP body.";
             Suggestion := "";
             Descriptor := Some 13%positive;
             Location := MethodHTTPRule (Some 13%positive) |}]).
Proof.
  assert (example.heap !! 13%positive = Some (NMethod example.GetBook))
    as H1 by reflexivity.
  assert (~ Forall (fun r => Body r = "") (http_rules_of example.GetBook))
    as H2.
  { intros Hall. inversion Hall. discriminate. }
  exact (conj H1 (conj H2
           (proj1 (proj2 (http_body_lints_report_one_problem example.heap
                            13%positive _ H1))))).
Defined.

(** Two HTTP rules of [GetBook] have a body, and [LintNoHTTPBody] carries
    one Problem. *)
Example LintNoHTTPBody_GetBook :
  List.length (List.filter (fun r => negb (String.eqb (Body r) ""))
                           (http_rules_of example.GetBook)) = 2%nat
  /\ (fun out => match fst out with
                 | Ok (Some le) => List.length (utils.Problems le)
                 | _ => 0%nat
                 end)
       (run (utils.LintNoHTTPBody (Some 13%positive)) example.heap) = 1%nat.
Proof. split; vm_compute; reflexivity. Qed.

Lemma checks_do_not_depend_on_earlier_invocations_witness :
  In aip25146.objectValues [aip25146.objectValues; aip0126.unspecified]
  /\ In aip0126.unspecified [aip25146.objectValues; aip0126.unspecified]
  /\ forall (s : Store) (d d' : ptr),
       fst (run (Lint aip25146.objectValues d)
                (snd (run (Lint aip25146.objectValues d) s)))
       = fst (run (Lint aip25146.objectValues d) s)
       /\ fst (run (Lint aip25146.objectValues d)
                   (snd (run (Lint aip0126.unspecified d') s)))
          = fst (run (Lint aip25146.objectValues d) s).
Proof.
  assert (In aip25146.objectValues
             [aip25146.objectValues; aip0126.unspecified])
    as H1 by (simpl; auto).
  assert (In aip0126.unspecified
             [aip25146.objectValues; aip0126.unspecified])
    as H2 by (simpl; auto).
  exact (conj H1 (conj H2
           (checks_do_not_depend_on_earlier_invocations _ _ H1 H2))).
Defined.

Lemma register_twice_keeps_first_witness :
  Register aip25146.objectValues empty_registry
  = (None, {| rules := [aip25146.objectValues]; frozen := false |})
  /\ Name (FieldRule (NewRuleName 25146 "object-values") None
                     (fun _ => mret []))
     = Name aip25146.objectValues
  /\ Register (FieldRule (NewRuleName 25146 "object-values") None
                         (fun _ => mret []))
              {| rules := [aip25146.objectValues]; frozen := false |}
     = (Some DuplicateRuleName,
        {| rules := [aip25146.objectValues]; frozen := false |})
  /\ Lookup (Name aip25146.objectValues)
       (snd (Register (FieldRule (NewRuleName 25146 "object-values") None
                                 (fun _ => mret []))
               {| rules := [aip25146.objectValues]; frozen := false |}))
     = Some aip25146.objectValues.
Proof.
  assert (Register aip25146.objectValues empty_registry
          = (None, {| rules := [aip25146.objectValues]; frozen := false |}))
    as H1 by reflexivity.
  assert (Name (FieldRule (NewRuleName 25146 "object-values") None
                          (fun _ => mret []))
          = Name aip25146.objectValues) as H2 by reflexivity.
  exact (conj H1 (conj H2
           (register_twice_keeps_first aip25146.objectValues _ _ _ H1 H2))).
Defined.

Lemma suppression_monotonicity_witness :
  IsSuppressed (example.library [example.disable_object_values]) [0%nat]
               (Name aip25146.objectValues) = true
  /\ (forall e,
        In e (fst (emissions
                     (example.library [example.disable_object_values])
                     example.registry example.heap)) ->
        RuleID (em_diag e) = Some (Name aip25146.objectValues) ->
        ~ within [0%nat] (em_decl e))
  /\ (distinct_declarations
        (example.library [example.disable_object_values]) ->
      (forall r', In r' (rules example.registry) ->
                  Name r' = Name aip25146.objectValues ->
                  reports_own_declaration r') ->
      forall p d' t,
        In (Finding (Name aip25146.objectValues) p)
           (Run (example.library [example.disable_object_values])
                example.registry example.heap) ->
        within [0%nat] d' ->
        resolve (example.library [example.disable_object_values]) d' = Some t ->
        Descriptor p <> decl_ptr t).
Proof.
  assert (IsSuppressed (example.library [example.disable_object_values])
            [0%nat] (Name aip25146.objectValues) = true)
    as H1 by (vm_compute; reflexivity).
  exact (conj H1
           (suppression_monotonicity
              (example.library [example.disable_object_values])
              example.registry example.heap aip25146.objectValues
              [0%nat] H1)).
Defined.

(** A run with the two rules leaves the descriptors as it found them. *)
Example run_leaves_heap_unchanged (comments : list string) (s : Store) :
  snd (emissions (example.library comments) example.registry s) = s.
Proof.
  apply emissions_read_only. repeat constructor.
  - apply objectValues_OnlyIf_read_only.
  - apply objectValues_LintField_read_only.
  - apply unspecified_OnlyIf_read_only.
  - apply unspecified_LintEnumValue_read_only.
Qed.

(** With [Book] suppressed, no Problem of [object-values] in the output is
    about [Book] or about its field [contents]. *)
Example suppressed_Book_is_silent (p : Problem) :
  In (Finding (Name aip25146.objectValues) p)
     (Run (example.library [example.disable_object_values])
          example.registry example.heap) ->
  Descriptor p <> Some 2%positive /\ Descriptor p <> Some 4%positive.
Proof.
  intros Hin.
  assert (IsSuppressed (example.library [example.disable_object_values])
            [0%nat] (Name aip25146.objectValues) = true)
    as Hsup by (vm_compute; reflexivity).
  assert (forall r', In r' (rules example.registry) ->
                     Name r' = Name aip25146.objectValues ->
                     reports_own_declaration r') as Hown.
  { intros r' [<- | [<- | []]] _.
    - apply objectValues_reports_own_declaration.
    - apply unspecified_reports_own_declaration. }
  pose proof (suppressed_reports_nothing _ _ example.heap _ _ Hsup
                (example_distinct_declarations _) Hown p) as Hnone.
  split.
  - apply (Hnone [0%nat] (example.Book_decl [example.disable_object_values]));
      [assumption | exists []; reflexivity | reflexivity].
  - apply (Hnone [0%nat; 0%nat] (Decl KField (Some 4%positive) [] []));
      [assumption | exists [0%nat]; reflexivity | reflexivity].
Qed.

End witnesses.

(** * Further properties of [common_lints.go] and of the two rules *)

(** ** The checks on one field *)

Section field_lints.
Context `{!Collaborators}.
Variables (s : Store) (f : addr) (fd : FieldDescriptor).
Hypothesis field_at_f : s !! f = Some (NField fd).

Lemma lintSingularField_run (t : builder.FieldType_) (want : string) :
  run (utils.lintSingularField (Some f) t want) s =
  (Ok (if decide (fld_type fd = builder.GetType t /\ fld_repeated fd = false)
       then None
       else Some (utils.NewLintErr [{|
         Message := "The `" +:+ fld_name fd +:+ "` field must be a singular "
                    +:+ want +:+ ".";
         Suggestion := want;
         Descriptor := Some f;
         Location := FieldType (Some f) |}])), s).
Proof.
  unfold utils.lintSingularField. go_unfold. go_lookup.
  destruct (decide (fld_type fd = builder.GetType t)) as [Hty | Hty].
  - rewrite bool_decide_eq_false_2 by (intros Hne; apply Hne; exact Hty).
    go_lookup. destruct (fld_repeated fd); simpl.
    + rewrite decide_False by (intros [_ Hrep]; discriminate).
      go_lookup. reflexivity.
    + rewrite decide_True by (split; [exact Hty | reflexivity]). reflexivity.
  - rewrite bool_decide_eq_true_2 by exact Hty. simpl.
    rewrite decide_False by (intros [Heq _]; contradiction).
    go_lookup. reflexivity.
Qed.

(** X1.  [LintSingularStringField] and [LintSingularBoolField] return nil
    exactly when the field has the wanted scalar type and is not repeated;
    otherwise they return one Problem on the field, at its type, whose
    Suggestion is the wanted type.  A repeated field of the right type is
    reported like a field of another type. *)
Theorem singular_field_lints :
  run (utils.LintSingularStringField (Some f)) s =
    (Ok (if decide (fld_type fd = TYPE_STRING /\ fld_repeated fd = false)
         then None
         else Some (utils.NewLintErr [{|
           Message := "The `" +:+ fld_name fd
                      +:+ "` field must be a singular string.";
           Suggestion := "string";
           Descriptor := Some f;
           Location := FieldType (Some f) |}])), s)
  /\ run (utils.LintSingularBoolField (Some f)) s =
     (Ok (if decide (fld_type fd = TYPE_BOOL /\ fld_repeated fd = false)
          then None
          else Some (utils.NewLintErr [{|
            Message := "The `" +:+ fld_name fd
                       +:+ "` field must be a singular bool.";
            Suggestion := "bool";
            Descriptor := Some f;
            Location := FieldType (Some f) |}])), s).
Proof.
  unfold utils.LintSingularStringField, utils.LintSingularBoolField.
  split; apply lintSingularField_run.
Qed.

(** The Problem of [LintFieldMask]. *)
Lemma LintFieldMask_no_type :
  fld_msg_type fd = None ->
  run (utils.LintFieldMask (Some f)) s =
  (Ok (Some (utils.NewLintErr [{|
     Message := "The `" +:+ fld_name fd
                +:+ "` field should be a singular google.protobuf.FieldMask.";
     Suggestion := "google.protobuf.FieldMask";
     Descriptor := Some f;
     Location := FieldType (Some f) |}])), s).
Proof.
  intros Hty. unfold utils.LintFieldMask. go_unfold. go_lookup.
  rewrite Hty. rewrite bool_decide_eq_true_2 by reflexivity.
  go_lookup. reflexivity.
Qed.

Lemma LintFieldMask_typed (ta : addr) (md : MessageDescriptor) :
  fld_msg_type fd = Some ta -> s !! ta = Some (NMessage md) ->
  run (utils.LintFieldMask (Some f)) s =
  (Ok (if decide (msg_fqn md = "google.protobuf.FieldMask"
                  /\ fld_repeated fd = false)
       then None
       else Some (utils.NewLintErr [{|
         Message := "The `" +:+ fld_name fd
                    +:+ "` field should be a singular google.protobuf.FieldMask.";
         Suggestion := "google.protobuf.FieldMask";
         Descriptor := Some f;
         Location := FieldType (Some f) |}])), s).
Proof.
  intros Hty Hta. unfold utils.LintFieldMask. go_unfold. go_lookup.
  rewrite Hty. rewrite bool_decide_eq_false_2 by discriminate.
  go_lookup.
  destruct (decide (msg_fqn md = "google.protobuf.FieldMask")) as [Hq | Hq].
  - rewrite bool_decide_eq_false_2 by (intros Hne; apply Hne; exact Hq).
    go_lookup. destruct (fld_repeated fd); simpl.
    + rewrite decide_False by (intros [_ Hrep]; discriminate).
      go_lookup. reflexivity.
    + rewrite decide_True by (split; [exact Hq | reflexivity]). reflexivity.
  - rewrite bool_decide_eq_true_2 by exact Hq. simpl.
    rewrite decide_False by (intros [Heq _]; contradiction).
    go_lookup. reflexivity.
Qed.

(** X2.  [LintFieldMask] on a field without a message type (a scalar field)
    does not dereference the nil type: it returns its Problem.  On a field
    of a message type it returns nil exactly when that type is
    [google.protobuf.FieldMask] and the field is not repeated.  In a
    well-typed store it never panics. *)
Theorem field_mask_lint :
  (fld_msg_type fd = None ->
   exists le, run (utils.LintFieldMask (Some f)) s = (Ok (Some le), s)
              /\ one_problem_about (Some f) (Some le))
  /\ (forall ta md,
        fld_msg_type fd = Some ta -> s !! ta = Some (NMessage md) ->
        exists err,
          run (utils.LintFieldMask (Some f)) s = (Ok err, s)
          /\ (err = None <-> msg_fqn md = "google.protobuf.FieldMask"
                             /\ fld_repeated fd = false)
          /\ one_problem_about (Some f) err)
  /\ (well_typed s ->
      exists err, run (utils.LintFieldMask (Some f)) s = (Ok err, s)).
Proof.
  split; [| split].
  - intros Hty. eexists. split; [apply LintFieldMask_no_type; exact Hty |].
    intros le [= <-]. eexists. split; reflexivity.
  - intros ta md Hty Hta. eexists.
    split; [apply (LintFieldMask_typed ta md Hty Hta) |].
    destruct (decide _) as [Hyes | Hno]; split.
    + tauto.
    + intros le [=].
    + split; [discriminate | contradiction].
    + intros le [= <-]. eexists. split; reflexivity.
  - intros Hwt. destruct (fld_msg_type fd) as [ta |] eqn:Hty.
    + pose proof (Hwt f _ field_at_f) as Hok. simpl in Hok.
      apply andb_true_iff in Hok as [Hok _].
      apply andb_true_iff in Hok as [_ Hta]. rewrite Hty in Hta.
      simpl in Hta. destruct (s !! ta) as [n |] eqn:Hn; [| discriminate].
      apply bool_decide_eq_true in Hta.
      destruct n as [| md | | | | |]; try discriminate.
      eexists. apply (LintFieldMask_typed ta md Hty Hn).
    + eexists. apply LintFieldMask_no_type. exact Hty.
Qed.

Lemma lintFieldBehavior_run (want : string) :
  run (utils.lintFieldBehavior (Some f) want) s =
  (Ok (if decide (want ∈ field_behavior_set fd) then None
       else Some (utils.NewLintErr [{|
         Message := "The `" +:+ fld_name fd
                    +:+ "` field should include `(google.api.field_behavior) = "
                    +:+ want +:+ "`.";
         Suggestion := "";
         Descriptor := Some f;
         Location := Whole |}])), s).
Proof.
  unfold utils.lintFieldBehavior. go_unfold. go_lookup.
  destruct (decide (want ∈ field_behavior_set fd)) as [Hin | Hout].
  - rewrite bool_decide_eq_true_2 by exact Hin. reflexivity.
  - rewrite bool_decide_eq_false_2 by exact Hout. simpl. go_lookup.
    reflexivity.
Qed.

(** X3.  [LintRequiredField] returns nil exactly when [REQUIRED] is among
    the field's behaviors and [LintOutputOnlyField] exactly when
    [OUTPUT_ONLY] is; [LintFieldResourceReference] returns nil exactly when
    the field has a resource reference.  Each otherwise returns one Problem
    on the field, with no Suggestion and no Location. *)
Theorem field_annotation_lints :
  (exists err,
     run (utils.LintRequiredField (Some f)) s = (Ok err, s)
     /\ (err = None <-> "REQUIRED" ∈ field_behavior_set fd)
     /\ forall le, err = Some le ->
        exists p, utils.Problems le = [p] /\ Descriptor p = Some f
                  /\ Suggestion p = "" /\ Location p = Whole)
  /\ (exists err,
        run (utils.LintOutputOnlyField (Some f)) s = (Ok err, s)
        /\ (err = None <-> "OUTPUT_ONLY" ∈ field_behavior_set fd)
        /\ forall le, err = Some le ->
           exists p, utils.Problems le = [p] /\ Descriptor p = Some f
                     /\ Suggestion p = "" /\ Location p = Whole)
  /\ (exists err,
        run (utils.LintFieldResourceReference (Some f)) s = (Ok err, s)
        /\ (err = None <-> resource_reference_of fd <> None)
        /\ forall le, err = Some le ->
           exists p, utils.Problems le = [p] /\ Descriptor p = Some f
                     /\ Suggestion p = "" /\ Location p = Whole).
Proof.
  unfold utils.LintRequiredField, utils.LintOutputOnlyField.
  split; [| split].
  - eexists. split; [apply lintFieldBehavior_run |].
    destruct (decide _) as [Hin | Hout]; split.
    + tauto.
    + intros le [=].
    + split; [discriminate | contradiction].
    + intros le [= <-]. eexists. repeat split.
  - eexists. split; [apply lintFieldBehavior_run |].
    destruct (decide _) as [Hin | Hout]; split.
    + tauto.
    + intros le [=].
    + split; [discriminate | contradiction].
    + intros le [= <-]. eexists. repeat split.
  - unfold utils.LintFieldResourceReference. go_unfold. go_lookup.
    destruct (decide (resource_reference_of fd = None)) as [Hnone | Hsome].
    + go_lookup. eexists. split; [reflexivity |]. split.
      * split; [discriminate | contradiction].
      * intros le [= <-]. eexists. repeat split.
    + eexists. split; [reflexivity |]. split.
      * tauto.
      * intros le [=].
Qed.

End field_lints.

(** ** The checks on the fields of a message *)

Section message_lints.
Context `{!Collaborators}.
Variables (s : Store) (m : addr) (md : MessageDescriptor).
Hypothesis message_at_m : s !! m = Some (NMessage md).
Hypothesis fields_are_fields : forallb (is_field s) (msg_fields md) = true.

Lemma find_field_run (name : string) (fields : list ptr) :
  forallb (is_field s) fields = true ->
  run (find_field name fields) s =
  (Ok (from_option id None (List.find (field_named s name) fields)), s).
Proof.
  induction fields as [| p rest IH]; intros Hall; [reflexivity |].
  simpl in Hall. apply andb_true_iff in Hall as [Hp Hrest].
  cbn [find_field List.find]. unfold is_field, field_named in *.
  destruct p as [a |]; [| discriminate].
  destruct (s !! a) as [[| | d | | | |] |] eqn:Ha; try discriminate.
  go_unfold. go_lookup.
  destruct (decide (fld_name d = name)) as [Heq | Hne].
  - rewrite bool_decide_eq_true_2 by exact Heq. reflexivity.
  - rewrite bool_decide_eq_false_2 by exact Hne. apply IH. exact Hrest.
Qed.

Lemma find_field_named (name : string) (fields : list ptr) (p : ptr) :
  List.find (field_named s name) fields = Some p ->
  exists a d, p = Some a /\ s !! a = Some (NField d) /\ fld_name d = name.
Proof.
  intros Hfind. apply find_some in Hfind as [_ Hp].
  unfold field_named in Hp. destruct p as [a |]; [| discriminate].
  destruct (s !! a) as [[| | d | | | |] |] eqn:Ha; try discriminate.
  apply bool_decide_eq_true in Hp. eauto.
Qed.

Lemma LintFieldPresent_run (field : string) :
  run (utils.LintFieldPresent (Some m) field) s =
  (Ok (match List.find (field_named s field) (msg_fields md) with
       | Some f => (f, None)
       | None =>
           (None, Some (utils.NewLintErr [{|
              Message := "Message `" +:+ msg_name md +:+ "` has no `"
                         +:+ field +:+ "` field.";
              Suggestion := "";
              Descriptor := Some m;
              Location := Whole |}]))
       end), s).
Proof.
  unfold utils.LintFieldPresent, FindFieldByName.
  rewrite (run_bind_ok _ _ s s
             (from_option id None
                (List.find (field_named s field) (msg_fields md)))).
  - destruct (List.find _ _) as [p |] eqn:Hfind;
      cbn [from_option]; unfold id; cbv beta.
    + destruct (find_field_named _ _ _ Hfind) as (a & d & -> & _ & _).
      rewrite decide_False by discriminate. reflexivity.
    + rewrite decide_True by reflexivity. go_unfold. go_lookup. reflexivity.
  - rewrite (run_bind_ok _ _ s s md).
    + apply find_field_run. exact fields_are_fields.
    + go_unfold. go_lookup. reflexivity.
Qed.



End message_lints.

(** ** The checks on one method *)

Lemma max_is_Z_max (x y : Z) : utils.max x y = Z.max x y.
Proof. unfold utils.max. destruct (decide (x > y)%Z); lia. Qed.

(** X6.  [max] returns the larger of its two arguments: it is one of them,
    and not below either. *)
Theorem max_returns_the_larger (x y : Z) :
  (x <= utils.max x y)%Z /\ (y <= utils.max x y)%Z
  /\ (utils.max x y = x \/ utils.max x y = y)
  /\ utils.max x y = utils.max y x.
Proof.
  unfold utils.max.
  destruct (decide (x > y)%Z), (decide (y > x)%Z); repeat split; auto; lia.
Qed.

(** The count that [LintHTTPURIVariableCount] compares with [n]: starting
    from [c], the largest number of variables of a rule. *)
Lemma varsCount_spec `{!Collaborators} (rules : list HTTPRule) (c : Z) :
  let count :=
    fold_left (fun varsCount httpRule =>
                 utils.max varsCount
                   (Z.of_nat (size (utils.GetVariables httpRule))))
              rules c in
  (c <= count)%Z
  /\ (forall r, In r rules ->
        (Z.of_nat (size (utils.GetVariables r)) <= count)%Z)
  /\ (count = c
      \/ exists r, In r rules
                   /\ count = Z.of_nat (size (utils.GetVariables r))).
Proof.
  revert c. induction rules as [| r rest IH]; intros c; simpl.
  - split; [lia |]. split; [intros r [] | left; reflexivity].
  - specialize (IH (utils.max c (Z.of_nat (size (utils.GetVariables r))))).
    simpl in IH. destruct IH as (Hge & Hall & Hhit).
    rewrite max_is_Z_max in *.
    split; [lia |]. split.
    + intros r' [<- | Hin]; [lia | auto].
    + destruct Hhit as [Heq | (r' & Hin & Heq)].
      * destruct (Z.max_spec c (Z.of_nat (size (utils.GetVariables r))))
          as [[_ Hmax] | [_ Hmax]].
        -- right. exists r. split; [auto | lia].
        -- left. lia.
      * right. exists r'. auto.
Qed.

Section method_lints.
Context `{!Collaborators}.
Variables (s : Store) (m : addr) (md : MethodDescriptor).
Hypothesis method_at_m : s !! m = Some (NMethod md).

Lemma GetHTTPRules_run :
  run (utils.GetHTTPRules (Some m)) s = (Ok (http_rules_of md), s).
Proof. go_unfold. go_lookup. reflexivity. Qed.

Lemma LintHTTPMethod_run (verb : string) :
  run (utils.LintHTTPMethod verb (Some m)) s =
  (Ok (if decide (Forall (fun r => Method r = verb) (http_rules_of md))
       then None
       else Some (utils.NewLintErr [{|
         Message := "The `" +:+ mth_name md +:+ "` method should use the HTTP "
                    +:+ verb +:+ " verb.";
         Suggestion := "";
         Descriptor := Some m;
         Location := MethodHTTPRule (Some m) |}])), s).
Proof.
  unfold utils.LintHTTPMethod. rewrite (run_bind_ok _ _ _ _ _ GetHTTPRules_run).
  induction (http_rules_of md) as [| r rest IH];
    cbn [utils.LintHTTPMethod_range].
  - rewrite decide_True by constructor. reflexivity.
  - destruct (decide (Method r ≠ verb)) as [Hne | Heq].
    + go_unfold. go_lookup.
      rewrite decide_False by (intros Hall; inversion Hall; contradiction).
      reflexivity.
    + apply dec_stable in Heq. rewrite IH.
      destruct (decide (Forall _ rest)) as [Hall | Hno].
      * rewrite decide_True by (constructor; assumption). reflexivity.
      * rewrite decide_False
          by (intros Hall; inversion Hall; contradiction).
        reflexivity.
Qed.

Lemma LintHTTPURIHasVariable_run (v : string) :
  run (utils.LintHTTPURIHasVariable (Some m) v) s =
  (Ok (if decide (Forall (fun r => is_Some (utils.GetVariables r !! v))
                         (http_rules_of md))
       then None
       else Some (utils.NewLintErr [{|
         Message := "HTTP URI should include a `" +:+ v +:+ "` variable.";
         Suggestion := "";
         Descriptor := Some m;
         Location := MethodHTTPRule (Some m) |}])), s).
Proof.
  unfold utils.LintHTTPURIHasVariable.
  rewrite (run_bind_ok _ _ _ _ _ GetHTTPRules_run).
  induction (http_rules_of md) as [| r rest IH];
    cbn [utils.LintHTTPURIHasVariable_range].
  - rewrite decide_True by constructor. reflexivity.
  - destruct (decide (utils.GetVariables r !! v = None)) as [Hnone | Hsome].
    + rewrite decide_False; [reflexivity |].
      intros Hall. inversion Hall as [| ? ? [x Hx] _]; subst.
      rewrite Hnone in Hx. discriminate.
    + rewrite IH.
      assert (is_Some (utils.GetVariables r !! v)) as Hr.
      { destruct (utils.GetVariables r !! v); [eauto | contradiction]. }
      destruct (decide (Forall _ rest)) as [Hall | Hno].
      * rewrite decide_True by (constructor; assumption). reflexivity.
      * rewrite decide_False
          by (intros Hall; inversion Hall; contradiction).
        reflexivity.
Qed.

(** X7.  [LintHTTPMethod] returns nil exactly when every HTTP rule of the
    method uses the given verb; otherwise it returns one Problem on the
    method, at its HTTP annotation, however many rules use another verb. *)
Theorem http_method_lint (verb : string) :
  exists err,
    run (utils.LintHTTPMethod verb (Some m)) s = (Ok err, s)
    /\ (err = None
        <-> Forall (fun r => Method r = verb) (http_rules_of md))
    /\ forall le, err = Some le ->
       utils.Problems le = [{|
         Message := "The `" +:+ mth_name md +:+ "` method should use the HTTP "
                    +:+ verb +:+ " verb.";
         Suggestion := "";
         Descriptor := Some m;
         Location := MethodHTTPRule (Some m) |}].
Proof.
  eexists. split; [apply LintHTTPMethod_run |].
  destruct (decide _) as [Hall | Hno]; split.
  - tauto.
  - intros le [=].
  - split; [discriminate | contradiction].
  - intros le [= <-]. reflexivity.
Qed.

(** X8.  [LintHTTPURIHasVariable] returns nil exactly when the URI of every
    HTTP rule of the method has the variable; otherwise it returns one
    Problem on the method.  [LintHTTPURIHasParentVariable] and
    [LintHTTPURIHasNameVariable] are that check for [parent] and for
    [name]. *)
Theorem http_uri_variable_lints :
  (forall v,
     exists err,
       run (utils.LintHTTPURIHasVariable (Some m) v) s = (Ok err, s)
       /\ (err = None
           <-> Forall (fun r => is_Some (utils.GetVariables r !! v))
                      (http_rules_of md))
       /\ forall le, err = Some le ->
          utils.Problems le = [{|
            Message := "HTTP URI should include a `" +:+ v +:+ "` variable.";
            Suggestion := "";
            Descriptor := Some m;
            Location := MethodHTTPRule (Some m) |}])
  /\ run (utils.LintHTTPURIHasParentVariable (Some m)) s
     = run (utils.LintHTTPURIHasVariable (Some m) "parent") s
  /\ run (utils.LintHTTPURIHasNameVariable (Some m)) s
     = run (utils.LintHTTPURIHasVariable (Some m) "name") s.
Proof.
  split; [| split; reflexivity].
  intros v. eexists. split; [apply LintHTTPURIHasVariable_run |].
  destruct (decide _) as [Hall | Hno]; split.
  - tauto.
  - intros le [=].
  - split; [discriminate | contradiction].
  - intros le [= <-]. reflexivity.
Qed.

(** X9.  [LintHTTPURIVariableCount] compares [n] with the largest number of
    variables among the HTTP rules, not with the number of each rule: it
    returns nil exactly when no rule has more than [n] variables and either
    some rule has exactly [n] or [n] is 0.  Otherwise it returns one Problem
    on the method, whose message says "variable" for 1 and "variables"
    for any other number. *)
Theorem http_uri_variable_count_lint (n : Z) :
  exists err,
    run (utils.LintHTTPURIVariableCount (Some m) n) s = (Ok err, s)
    /\ (err = None
        <-> (forall r, In r (http_rules_of md) ->
               (Z.of_nat (size (utils.GetVariables r)) <= n)%Z)
            /\ (n = 0%Z
                \/ exists r, In r (http_rules_of md)
                     /\ Z.of_nat (size (utils.GetVariables r)) = n))
    /\ forall le, err = Some le ->
       utils.Problems le = [{|
         Message := "HTTP URI should contain " +:+ pretty n +:+ " "
                    +:+ (if decide (n = 1%Z) then "variable" else "variables")
                    +:+ ".";
         Suggestion := "";
         Descriptor := Some m;
         Location := MethodHTTPRule (Some m) |}].
Proof.
  unfold utils.LintHTTPURIVariableCount.
  rewrite (run_bind_ok _ _ _ _ _ GetHTTPRules_run).
  destruct (varsCount_spec (http_rules_of md) 0%Z) as (Hge & Hall & Hhit).
  cbv zeta in *.
  set (count := fold_left _ (http_rules_of md) 0%Z) in *.
  destruct (decide (count ≠ n)) as [Hne | Heq].
  - eexists. split; [reflexivity |]. split.
    + split; [discriminate |]. intros [Hle Hn]. exfalso. apply Hne.
      destruct Hhit as [Hzero | (r & Hin & Hr)].
      * destruct Hn as [-> | (r & Hin & Hr)]; [exact Hzero |].
        specialize (Hall r Hin). lia.
      * specialize (Hle r Hin).
        destruct Hn as [-> | (r' & Hin' & Hr')]; [lia |].
        specialize (Hall r' Hin'). lia.
    + intros le [= <-]. reflexivity.
  - apply dec_stable in Heq. eexists. split; [reflexivity |]. split.
    + split; [| reflexivity]. intros _. subst n. split; [exact Hall |].
      destruct Hhit as [Hzero | (r & Hin & Hr)]; [left; exact Hzero |].
      right. exists r. split; [exact Hin | symmetry; exact Hr].
    + intros le [=].
Qed.

(** X10.  A method without HTTP rules passes every check that ranges over
    them: the body checks, the verb check and the variable checks return
    nil, whatever they want.  [LintHTTPURIVariableCount] alone looks at the
    rules as a whole, and returns nil only for a count of 0. *)
Theorem no_http_rules_pass_vacuously :
  http_rules_of md = [] ->
  run (utils.LintNoHTTPBody (Some m)) s = (Ok None, s)
  /\ run (utils.LintWildcardHTTPBody (Some m)) s = (Ok None, s)
  /\ (forall verb, run (utils.LintHTTPMethod verb (Some m)) s = (Ok None, s))
  /\ (forall v,
        run (utils.LintHTTPURIHasVariable (Some m) v) s = (Ok None, s))
  /\ run (utils.LintHTTPURIHasParentVariable (Some m)) s = (Ok None, s)
  /\ run (utils.LintHTTPURIHasNameVariable (Some m)) s = (Ok None, s)
  /\ (forall n, exists err,
        run (utils.LintHTTPURIVariableCount (Some m) n) s = (Ok err, s)
        /\ (err = None <-> n = 0%Z)).
Proof.
  intros Hnone.
  assert (forall v,
            run (utils.LintHTTPURIHasVariable (Some m) v) s = (Ok None, s))
    as Hvar.
  { intros v. rewrite LintHTTPURIHasVariable_run, Hnone.
    rewrite decide_True by constructor. reflexivity. }
  repeat split.
  - unfold utils.LintNoHTTPBody.
    rewrite (lintHTTPBody_run s m md _ _ method_at_m), Hnone.
    rewrite decide_True by constructor. reflexivity.
  - unfold utils.LintWildcardHTTPBody.
    rewrite (lintHTTPBody_run s m md _ _ method_at_m), Hnone.
    rewrite decide_True by constructor. reflexivity.
  - intros verb. rewrite LintHTTPMethod_run, Hnone.
    rewrite decide_True by constructor. reflexivity.
  - exact Hvar.
  - apply Hvar.
  - apply Hvar.
  - intros n. unfold utils.LintHTTPURIVariableCount.
    rewrite (run_bind_ok _ _ _ _ _ GetHTTPRules_run), Hnone.
    cbn [fold_left]. destruct (decide (0%Z ≠ n)) as [Hne | Heq].
    + eexists. split; [reflexivity |].
      split; [discriminate | intros ->; contradiction].
    + apply dec_stable in Heq. eexists. split; [reflexivity |].
      split; [intros _; symmetry; exact Heq | reflexivity].
Qed.

End method_lints.

Section method_names.
Context `{!Collaborators}.
Variables (s : Store) (m : addr) (md : MethodDescriptor).
Hypothesis method_at_m : s !! m = Some (NMethod md).

Lemma LintMethodHasMatchingRequestName_run (ia : addr) (input : MessageDescriptor) :
  mth_input md = Some ia -> s !! ia = Some (NMessage input) ->
  run (utils.LintMethodHasMatchingRequestName (Some m)) s =
  (Ok (if decide (msg_name input = mth_name md +:+ "Request") then None
       else Some (utils.NewLintErr [{|
         Message := "Request message should be named after the RPC, i.e. "
                    +:+ quote (mth_name md +:+ "Request") +:+ ".";
         Suggestion := mth_name md +:+ "Request";
         Descriptor := Some m;
         Location := MethodRequestType (Some m) |}])), s).
Proof.
  intros Hin Hia. unfold utils.LintMethodHasMatchingRequestName.
  go_unfold. go_lookup. rewrite Hin. go_lookup.
  destruct (decide (msg_name input ≠ _)) as [Hne | Heq].
  - rewrite decide_False by exact Hne. reflexivity.
  - apply dec_stable in Heq. rewrite decide_True by exact Heq. reflexivity.
Qed.

Lemma LintMethodHasMatchingResponseName_run (oa : addr) (output : MessageDescriptor) :
  mth_output md = Some oa -> s !! oa = Some (NMessage output) ->
  run (utils.LintMethodHasMatchingResponseName (Some m)) s =
  (Ok (if decide (msg_name output = mth_name md +:+ "Response") then None
       else Some (utils.NewLintErr [{|
         Message := "Response message should be named after the RPC, i.e. "
                    +:+ quote (mth_name md +:+ "Response") +:+ ".";
         Suggestion := mth_name md +:+ "Response";
         Descriptor := Some m;
         Location := MethodResponseType (Some m) |}])), s).
Proof.
  intros Hout Hoa. unfold utils.LintMethodHasMatchingResponseName.
  go_unfold. go_lookup. rewrite Hout. go_lookup.
  destruct (decide (msg_name output ≠ _)) as [Hne | Heq].
  - rewrite decide_False by exact Hne. reflexivity.
  - apply dec_stable in Heq. rewrite decide_True by exact Heq. reflexivity.
Qed.

(** X11.  [LintMethodHasMatchingRequestName] returns nil exactly when the
    request message is named after the method with the suffix [Request],
    and [LintMethodHasMatchingResponseName] likewise with [Response];
    otherwise each returns one Problem on the method, at the request or the
    response type, whose Suggestion is the wanted name.  The short name of
    the message is compared, not its fully qualified name. *)
Theorem method_message_name_lints
    (ia oa : addr) (input output : MessageDescriptor) :
  mth_input md = Some ia -> s !! ia = Some (NMessage input) ->
  mth_output md = Some oa -> s !! oa = Some (NMessage output) ->
  (exists err,
     run (utils.LintMethodHasMatchingRequestName (Some m)) s = (Ok err, s)
     /\ (err = None <-> msg_name input = mth_name md +:+ "Request")
     /\ forall le, err = Some le ->
        exists p, utils.Problems le = [p]
                  /\ Suggestion p = mth_name md +:+ "Request"
                  /\ Descriptor p = Some m
                  /\ Location p = MethodRequestType (Some m))
  /\ (exists err,
        run (utils.LintMethodHasMatchingResponseName (Some m)) s = (Ok err, s)
        /\ (err = None <-> msg_name output = mth_name md +:+ "Response")
        /\ forall le, err = Some le ->
           exists p, utils.Problems le = [p]
                     /\ Suggestion p = mth_name md +:+ "Response"
                     /\ Descriptor p = Some m
                     /\ Location p = MethodResponseType (Some m)).
Proof.
  intros Hin Hia Hout Hoa. split.
  - eexists.
    split; [apply (LintMethodHasMatchingRequestName_run ia input Hin Hia) |].
    destruct (decide _) as [Hyes | Hno]; split.
    + tauto.
    + intros le [=].
    + split; [discriminate | contradiction].
    + intros le [= <-]. eexists. repeat split.
  - eexists.
    split; [apply (LintMethodHasMatchingResponseName_run oa output Hout Hoa) |].
    destruct (decide _) as [Hyes | Hno]; split.
    + tauto.
    + intros le [=].
    + split; [discriminate | contradiction].
    + intros le [= <-]. eexists. repeat split.
Qed.


End method_names.

(** ** Every error carries one Problem *)

Section yields.
Context {A B : Type}.

Lemma yields_ret (Q : A -> Prop) (a : A) : Q a -> yields Q (mret a).
Proof. intros Ha s s' a' [= <- _]. exact Ha. Qed.

Lemma yields_bind (P : A -> Prop) (Q : B -> Prop) (m : Go A) (k : A -> Go B) :
  yields P m -> (forall a, P a -> yields Q (k a)) -> yields Q (x ← m; k x).
Proof.
  intros Hm Hk s s' b. rewrite run_bind.
  destruct (run m s) as [[a | e] s1] eqn:Hrun; [| discriminate].
  apply (Hk a (Hm s s1 a Hrun)).
Qed.

Lemma yields_any (m : Go A) : yields (fun _ => True) m.
Proof. intros s s' a _. exact I. Qed.

End yields.

Lemma one_problem_about_nil (d : ptr) : one_problem_about d None.
Proof. intros le [=]. Qed.

Lemma one_problem_about_new `{!Collaborators} (d : ptr) (p : Problem) :
  Descriptor p = d -> one_problem_about d (Some (utils.NewLintErr [p])).
Proof. intros Hd le [= <-]. exists p. split; [reflexivity | exact Hd]. Qed.

(** Go through a check: past each read, into each branch, up to the value
    returned. *)
Ltac yields_step :=
  match goal with
  | |- yields _ (mret _) => apply yields_ret
  | |- yields _ (mbind _ _) =>
      eapply yields_bind; [apply yields_any | intros ? _]
  | |- yields _ (if ?c then _ else _) => destruct c
  | |- one_problem_about _ None => apply one_problem_about_nil
  | |- one_problem_about _ (Some (utils.NewLintErr [_])) =>
      apply one_problem_about_new; reflexivity
  end.

Section one_problem.
Context `{!Collaborators}.

Lemma lintSingularField_one_problem f t want :
  yields (one_problem_about f) (utils.lintSingularField f t want).
Proof. unfold utils.lintSingularField. repeat yields_step. Qed.

Lemma lintSingularField_problem_at_type f t want :
  yields (fun err => forall le, err = Some le ->
            exists p, utils.Problems le = [p] /\ Descriptor p = f
                      /\ Location p = FieldType f)
         (utils.lintSingularField f t want).
Proof.
  unfold utils.lintSingularField.
  eapply yields_bind; [apply yields_any |]. intros [|] _.
  - eapply yields_bind; [apply yields_any |]. intros name _.
    apply yields_ret. intros le [= <-]. eexists. repeat split.
  - apply yields_ret. intros le [=].
Qed.

Lemma lintFieldBehavior_one_problem f want :
  yields (one_problem_about f) (utils.lintFieldBehavior f want).
Proof. unfold utils.lintFieldBehavior. repeat yields_step. Qed.

Lemma lintHTTPBody_one_problem m want msg :
  yields (one_problem_about m) (utils.lintHTTPBody m want msg).
Proof.
  unfold utils.lintHTTPBody. eapply yields_bind; [apply yields_any |].
  intros httpRules _. induction httpRules as [| r rest IH];
    cbn [utils.lintHTTPBody_range]; repeat yields_step. exact IH.
Qed.

Lemma LintHTTPMethod_one_problem verb m :
  yields (one_problem_about m) (utils.LintHTTPMethod verb m).
Proof.
  unfold utils.LintHTTPMethod. eapply yields_bind; [apply yields_any |].
  intros httpRules _. induction httpRules as [| r rest IH];
    cbn [utils.LintHTTPMethod_range]; repeat yields_step. exact IH.
Qed.

Lemma LintHTTPURIHasVariable_one_problem m v :
  yields (one_problem_about m) (utils.LintHTTPURIHasVariable m v).
Proof.
  unfold utils.LintHTTPURIHasVariable. eapply yields_bind; [apply yields_any |].
  intros httpRules _. induction httpRules as [| r rest IH];
    cbn [utils.LintHTTPURIHasVariable_range]; repeat yields_step. exact IH.
Qed.

Lemma LintFieldPresent_field_or_error m field :
  yields (fun '(f, err) => (f = None <-> err <> None)
                           /\ one_problem_about m err)
         (utils.LintFieldPresent m field).
Proof.
  unfold utils.LintFieldPresent. eapply yields_bind; [apply yields_any |].
  intros f _. destruct (decide (f = None)) as [-> | Hf].
  - eapply yields_bind; [apply yields_any |]. intros name _.
    apply yields_ret. split; [split; [discriminate | reflexivity] |].
    apply one_problem_about_new. reflexivity.
  - apply yields_ret. split; [| apply one_problem_about_nil].
    split; [contradiction | intros Hne; exfalso; apply Hne; reflexivity].
Qed.


End one_problem.

(** ** More on the rule [unspecified] *)

Lemma upper_byte_not_lower (c : Ascii.ascii) :
  let n := Ascii.N_of_ascii (strings.upper_byte c) in
  ((97 <=? n) && (n <=? 122))%N = false.
Proof. destruct c as [[] [] [] [] [] [] [] []]; reflexivity. Qed.

(** [strings.ToUpper] leaves no byte in ['a'..'z']. *)
Lemma ToUpper_no_lower (s : string) : has_lower (strings.ToUpper s) = false.
Proof.
  induction s as [| c s IH]; [reflexivity |].
  cbn [strings.ToUpper has_lower].
  rewrite IH, orb_false_r. apply upper_byte_not_lower.
Qed.

Section unspecified_more.
Context `{!Collaborators}.
Variables (s : Store) (v ea : addr).
Variables (value : EnumValueDescriptor) (enum : EnumDescriptor).
Hypothesis value_at_v : s !! v = Some (NEnumValue value).
Hypothesis enum_of_value : val_enum value = Some ea.
Hypothesis enum_at_ea : s !! ea = Some (NEnum enum).

Lemma unspecified_LintEnumValue_run :
  run (Lint aip0126.unspecified (Some v)) s =
  (Ok (if decide (val_name value = aip0126.wanted (enum_name enum)) then []
       else [{| Message := "The first enum value should be "
                           +:+ quote (aip0126.wanted (enum_name enum));
                Suggestion := aip0126.wanted (enum_name enum);
                Descriptor := Some v;
                Location := DescriptorName (Some v) |}]), s).
Proof.
  go_unfold. go_lookup. rewrite enum_of_value. go_lookup.
  destruct (decide (val_name value ≠ _)) as [Hne | Heq].
  - rewrite decide_False by exact Hne. reflexivity.
  - apply dec_stable in Heq. rewrite decide_True by exact Heq. reflexivity.
Qed.

(** X14.  Whatever the enum is called and whatever [SnakeCase] makes of it,
    the check reports a value whose name has a lower-case letter, and a
    value whose name does not end in [_UNSPECIFIED]: the wanted name is
    upper-cased as a whole and ends in that suffix. *)
Theorem unspecified_reports_lowercase_and_unsuffixed_names :
  has_lower (val_name value) = true
  \/ (forall stem, val_name value <> stem +:+ "_UNSPECIFIED") ->
  run (Lint aip0126.unspecified (Some v)) s =
  (Ok [{| Message := "The first enum value should be "
                     +:+ quote (aip0126.wanted (enum_name enum));
          Suggestion := aip0126.wanted (enum_name enum);
          Descriptor := Some v;
          Location := DescriptorName (Some v) |}], s).
Proof.
  intros Hbad. rewrite unspecified_LintEnumValue_run.
  rewrite decide_False; [reflexivity |].
  intros Heq. destruct Hbad as [Hlower | Hsuffix].
  - rewrite Heq in Hlower. unfold aip0126.wanted in Hlower.
    rewrite ToUpper_no_lower in Hlower. discriminate.
  - apply (Hsuffix (strings.ToUpper (snake_case (enum_name enum)))).
    rewrite Heq. apply wanted_suffix.
Qed.


End unspecified_more.

(** ** More on the rule [object-values] *)

Section object_values_more.
Context `{!Collaborators}.
Variables (s : Store) (f fa : addr) (fd : FieldDescriptor) (file : FileDescriptor).
Hypothesis field_at_f : s !! f = Some (NField fd).
Hypothesis file_of_field : fld_file fd = Some fa.
Hypothesis file_at_fa : s !! fa = Some (NFile file).

(** X16.  The rule leaves alone what it is not about: its guard says no for
    every field of a common proto, map or not, and for every field that is
    not a map; and on a map whose values are not messages its check returns
    no Problem. *)
Theorem object_values_silent_cases :
  (is_common_proto file = true ->
   run (applies aip25146.objectValues (Some f)) s = (Ok false, s))
  /\ (fld_map_value fd = None ->
      run (applies aip25146.objectValues (Some f)) s = (Ok false, s))
  /\ (forall va value,
        fld_map_value fd = Some va -> s !! va = Some (NField value) ->
        fld_msg_type value = None ->
        run (Lint aip25146.objectValues (Some f)) s = (Ok [], s)).
Proof.
  pose proof (objectValues_OnlyIf_run s f fa fd file
                field_at_f file_of_field file_at_fa) as Hguard.
  split; [| split].
  - intros Hcommon. rewrite Hguard, Hcommon. reflexivity.
  - intros Hmv. rewrite Hguard, Hmv.
    rewrite bool_decide_eq_false_2 by (intros Hne; apply Hne; reflexivity).
    apply (f_equal (fun b => (Ok b, s))). apply andb_false_r.
  - intros va value Hmv Hva Hscalar.
    rewrite (objectValues_LintField_run s f va fd value field_at_f Hmv Hva).
    rewrite decide_False; [reflexivity |].
    intros Hne. apply Hne. exact Hscalar.
Qed.

End object_values_more.

(** ** The further properties at work on the example schema *)

Section more_witnesses.
#[local] Existing Instance example.collaborators.

Lemma singular_field_lints_witness :
  example.heap !! 15%positive = Some (NField example.request_name)
  /\ run (utils.LintSingularStringField (Some 15%positive)) example.heap
     = (Ok None, example.heap)
  /\ run (utils.LintSingularBoolField (Some 15%positive)) example.heap
     = (Ok (Some (utils.NewLintErr [{|
          Message := "The `name` field must be a singular bool.";
          Suggestion := "bool";
          Descriptor := Some 15%positive;
          Location := FieldType (Some 15%positive) |}])), example.heap).
Proof.
  assert (example.heap !! 15%positive = Some (NField example.request_name))
    as H1 by reflexivity.
  exact (conj H1 (singular_field_lints example.heap 15%positive _ H1)).
Defined.

Lemma field_mask_lint_witness :
  example.heap !! 4%positive = Some (NField example.contents)
  /\ (fld_msg_type example.contents = None ->
      exists le,
        run (utils.LintFieldMask (Some 4%positive)) example.heap
        = (Ok (Some le), example.heap)
        /\ one_problem_about (Some 4%positive) (Some le))
  /\ (forall ta md,
        fld_msg_type example.contents = Some ta ->
        example.heap !! ta = Some (NMessage md) ->
        exists err,
          run (utils.LintFieldMask (Some 4%positive)) example.heap
          = (Ok err, example.heap)
          /\ (err = None <-> msg_fqn md = "google.protobuf.FieldMask"
                             /\ fld_repeated example.contents = false)
          /\ one_problem_about (Some 4%positive) err)
  /\ (well_typed example.heap ->
      exists err,
        run (utils.LintFieldMask (Some 4%positive)) example.heap
        = (Ok err, example.heap)).
Proof.
  assert (example.heap !! 4%positive = Some (NField example.contents))
    as H1 by reflexivity.
  exact (conj H1 (field_mask_lint example.heap 4%positive _ H1)).
Defined.

(** A scalar field has no message type, and [LintFieldMask] reports it. *)
Example LintFieldMask_scalar_field :
  fst (run (utils.LintFieldMask (Some 15%positive)) example.heap)
  = Ok (Some (utils.NewLintErr [{|
      Message :=
        "The `name` field should be a singular google.protobuf.FieldMask.";
      Suggestion := "google.protobuf.FieldMask";
      Descriptor := Some 15%positive;
      Location := FieldType (Some 15%positive) |}])).
Proof. vm_compute. reflexivity. Qed.

Lemma field_annotation_lints_witness :
  example.heap !! 4%positive = Some (NField example.contents)
  /\ (exists err,
        run (utils.LintRequiredField (Some 4%positive)) example.heap
        = (Ok err, example.heap)
        /\ (err = None <-> "REQUIRED" ∈ field_behavior_set example.contents)
        /\ forall le, err = Some le ->
           exists p, utils.Problems le = [p]
                     /\ Descriptor p = Some 4%positive
                     /\ Suggestion p = "" /\ Location p = Whole)
  /\ (exists err,
        run (utils.LintOutputOnlyField (Some 4%positive)) example.heap
        = (Ok err, example.heap)
        /\ (err = None
            <-> "OUTPUT_ONLY" ∈ field_behavior_set example.contents)
        /\ forall le, err = Some le ->
           exists p, utils.Problems le = [p]
                     /\ Descriptor p = Some 4%positive
                     /\ Suggestion p = "" /\ Location p = Whole)
  /\ (exists err,
        run (utils.LintFieldResourceReference (Some 4%positive)) example.heap
        = (Ok err, example.heap)
        /\ (err = None <-> resource_reference_of example.contents <> None)
        /\ forall le, err = Some le ->
           exists p, utils.Problems le = [p]
                     /\ Descriptor p = Some 4%positive
                     /\ Suggestion p = "" /\ Location p = Whole).
Proof.
  assert (example.heap !! 4%positive = Some (NField example.contents))
    as H1 by reflexivity.
  exact (conj H1 (field_annotation_lints example.heap 4%positive _ H1)).
Defined.


(** [GetBookRequest] has no field [parent]. *)
Example LintFieldPresent_missing_field :
  run (utils.LintFieldPresent (Some 14%positive) "parent") example.heap
  = (Ok (None, Some (utils.NewLintErr [{|
       Message := "Message `GetBookRequest` has no `parent` field.";
       Suggestion := "";
       Descriptor := Some 14%positive;
       Location := Whole |}])), example.heap).
Proof. vm_compute. reflexivity. Qed.


Lemma http_method_lint_witness :
  example.heap !! 13%positive = Some (NMethod example.GetBook)
  /\ exists err,
       run (utils.LintHTTPMethod "GET" (Some 13%positive)) example.heap
       = (Ok err, example.heap)
       /\ (err = None
           <-> Forall (fun r => Method r = "GET")
                      (http_rules_of example.GetBook))
       /\ forall le, err = Some le ->
          utils.Problems le = [{|
            Message := "The `" +:+ mth_name example.GetBook
                       +:+ "` method should use the HTTP " +:+ "GET"
                       +:+ " verb.";
            Suggestion := "";
            Descriptor := Some 13%positive;
            Location := MethodHTTPRule (Some 13%positive) |}].
Proof.
  assert (example.heap !! 13%positive = Some (NMethod example.GetBook))
    as H1 by reflexivity.
  exact (conj H1 (http_method_lint example.heap 13%positive _ H1 "GET")).
Defined.

(** [GetBook] uses [GET] in both rules, and not [POST]. *)
Example LintHTTPMethod_GetBook :
  fst (run (utils.LintHTTPMethod "GET" (Some 13%positive)) example.heap)
  = Ok None
  /\ fst (run (utils.LintHTTPMethod "POST" (Some 13%positive)) example.heap)
     = Ok (Some (utils.NewLintErr [{|
         Message := "The `GetBook` method should use the HTTP POST verb.";
         Suggestion := "";
         Descriptor := Some 13%positive;
         Location := MethodHTTPRule (Some 13%positive) |}])).
Proof. split; vm_compute; reflexivity. Qed.

Lemma http_uri_variable_lints_witness :
  example.heap !! 13%positive = Some (NMethod example.GetBook)
  /\ (forall v,
        exists err,
          run (utils.LintHTTPURIHasVariable (Some 13%positive) v) example.heap
          = (Ok err, example.heap)
          /\ (err = None
              <-> Forall (fun r => is_Some (utils.GetVariables r !! v))
                         (http_rules_of example.GetBook))
          /\ forall le, err = Some le ->
             utils.Problems le = [{|
               Message := "HTTP URI should include a `" +:+ v
                          +:+ "` variable.";
               Suggestion := "";
               Descriptor := Some 13%positive;
               Location := MethodHTTPRule (Some 13%positive) |}])
  /\ run (utils.LintHTTPURIHasParentVariable (Some 13%positive)) example.heap
     = run (utils.LintHTTPURIHasVariable (Some 13%positive) "parent")
           example.heap
  /\ run (utils.LintHTTPURIHasNameVariable (Some 13%positive)) example.heap
     = run (utils.LintHTTPURIHasVariable (Some 13%positive) "name")
           example.heap.
Proof.
  assert (example.heap !! 13%positive = Some (NMethod example.GetBook))
    as H1 by reflexivity.
  exact (conj H1 (http_uri_variable_lints example.heap 13%positive _ H1)).
Defined.

(** Both URIs of [GetBook] bind [name] and neither binds [parent]. *)
Example LintHTTPURIHasVariable_GetBook :
  fst (run (utils.LintHTTPURIHasNameVariable (Some 13%positive)) example.heap)
  = Ok None
  /\ fst (run (utils.LintHTTPURIHasParentVariable (Some 13%positive))
              example.heap)
     = Ok (Some (utils.NewLintErr [{|
         Message := "HTTP URI should include a `parent` variable.";
         Suggestion := "";
         Descriptor := Some 13%positive;
         Location := MethodHTTPRule (Some 13%positive) |}])).
Proof. split; vm_compute; reflexivity. Qed.

Lemma http_uri_variable_count_lint_witness :
  example.heap !! 13%positive = Some (NMethod example.GetBook)
  /\ exists err,
       run (utils.LintHTTPURIVariableCount (Some 13%positive) 1) example.heap
       = (Ok err, example.heap)
       /\ (err = None
           <-> (forall r, In r (http_rules_of example.GetBook) ->
                  (Z.of_nat (size (utils.GetVariables r)) <= 1)%Z)
               /\ (1%Z = 0%Z
                   \/ exists r, In r (http_rules_of example.GetBook)
                        /\ Z.of_nat (size (utils.GetVariables r)) = 1%Z))
       /\ forall le, err = Some le ->
          utils.Problems le = [{|
            Message := "HTTP URI should contain " +:+ pretty 1%Z +:+ " "
                       +:+ (if decide (1%Z = 1%Z) then "variable"
                            else "variables")
                       +:+ ".";
            Suggestion := "";
            Descriptor := Some 13%positive;
            Location := MethodHTTPRule (Some 13%positive) |}].
Proof.
  assert (example.heap !! 13%positive = Some (NMethod example.GetBook))
    as H1 by reflexivity.
  exact (conj H1
           (http_uri_variable_count_lint example.heap 13%positive _ H1 1%Z)).
Defined.

(** [GetBook] has one variable per rule: a count of 1 passes, a count of 2
    is reported with the plural. *)
Example LintHTTPURIVariableCount_GetBook :
  fst (run (utils.LintHTTPURIVariableCount (Some 13%positive) 1) example.heap)
  = Ok None
  /\ fst (run (utils.LintHTTPURIVariableCount (Some 13%positive) 2)
              example.heap)
     = Ok (Some (utils.NewLintErr [{|
         Message := "HTTP URI should contain 2 variables.";
         Suggestion := "";
         Descriptor := Some 13%positive;
         Location := MethodHTTPRule (Some 13%positive) |}])).
Proof. split; vm_compute; reflexivity. Qed.

Lemma no_http_rules_pass_vacuously_witness :
  let Ping := {| mth_name := "Ping"; mth_input := None; mth_output := None;
                 mth_http := [] |} in
  let s : Store := {[ 1%positive := NMethod Ping ]} in
  s !! 1%positive = Some (NMethod Ping)
  /\ http_rules_of Ping = []
  /\ run (utils.LintNoHTTPBody (Some 1%positive)) s = (Ok None, s)
  /\ run (utils.LintWildcardHTTPBody (Some 1%positive)) s = (Ok None, s)
  /\ (forall verb,
        run (utils.LintHTTPMethod verb (Some 1%positive)) s = (Ok None, s))
  /\ (forall v,
        run (utils.LintHTTPURIHasVariable (Some 1%positive) v) s
        = (Ok None, s))
  /\ run (utils.LintHTTPURIHasParentVariable (Some 1%positive)) s
     = (Ok None, s)
  /\ run (utils.LintHTTPURIHasNameVariable (Some 1%positive)) s = (Ok None, s)
  /\ (forall n, exists err,
        run (utils.LintHTTPURIVariableCount (Some 1%positive) n) s
        = (Ok err, s)
        /\ (err = None <-> n = 0%Z)).
Proof.
  intros Ping s.
  assert (s !! 1%positive = Some (NMethod Ping)) as H1 by reflexivity.
  assert (http_rules_of Ping = []) as H2 by reflexivity.
  exact (conj H1 (conj H2
           (no_http_rules_pass_vacuously s 1%positive Ping H1 H2))).
Defined.

Lemma method_message_name_lints_witness :
  example.heap !! 13%positive = Some (NMethod example.GetBook)
  /\ mth_input example.GetBook = Some 14%positive
  /\ example.heap !! 14%positive = Some (NMessage example.GetBookRequest)
  /\ mth_output example.GetBook = Some 2%positive
  /\ example.heap !! 2%positive = Some (NMessage example.Book)
  /\ (exists err,
        run (utils.LintMethodHasMatchingRequestName (Some 13%positive))
            example.heap = (Ok err, example.heap)
        /\ (err = None
            <-> msg_name example.GetBookRequest
                = mth_name example.GetBook +:+ "Request")
        /\ forall le, err = Some le ->
           exists p, utils.Problems le = [p]
                     /\ Suggestion p = mth_name example.GetBook +:+ "Request"
                     /\ Descriptor p = Some 13%positive
                     /\ Location p = MethodRequestType (Some 13%positive))
  /\ (exists err,
        run (utils.LintMethodHasMatchingResponseName (Some 13%positive))
            example.heap = (Ok err, example.heap)
        /\ (err = None
            <-> msg_name example.Book
                = mth_name example.GetBook +:+ "Response")
        /\ forall le, err = Some le ->
           exists p, utils.Problems le = [p]
                     /\ Suggestion p = mth_name example.GetBook +:+ "Response"
                     /\ Descriptor p = Some 13%positive
                     /\ Location p = MethodResponseType (Some 13%positive)).
Proof.
  assert (example.heap !! 13%positive = Some (NMethod example.GetBook))
    as H1 by reflexivity.
  assert (mth_input example.GetBook = Some 14%positive) as H2 by reflexivity.
  assert (example.heap !! 14%positive
          = Some (NMessage example.GetBookRequest)) as H3 by reflexivity.
  assert (mth_output example.GetBook = Some 2%positive) as H4 by reflexivity.
  assert (example.heap !! 2%positive = Some (NMessage example.Book))
    as H5 by reflexivity.
  exact (conj H1 (conj H2 (conj H3 (conj H4 (conj H5
           (method_message_name_lints example.heap 13%positive _ H1
              14%positive 2%positive _ _ H2 H3 H4 H5)))))).
Defined.

(** [GetBook] takes a [GetBookRequest] and returns a [Book]: the request
    name passes, the response name is reported with its Suggestion. *)
Example method_message_names_GetBook :
  fst (run (utils.LintMethodHasMatchingRequestName (Some 13%positive))
           example.heap) = Ok None
  /\ (fun out => match out with
                 | Ok (Some le) => List.map Suggestion (utils.Problems le)
                 | _ => []
                 end)
       (fst (run (utils.LintMethodHasMatchingResponseName (Some 13%positive))
                 example.heap))
     = ["GetBookResponse"].
Proof. split; vm_compute; reflexivity. Qed.


Lemma unspecified_reports_lowercase_and_unsuffixed_names_witness :
  let Unknown := {| val_name := "Unknown"; val_number := 0;
                    val_enum := Some 1%positive |} in
  let s : Store :=
    list_to_map [(1%positive, NEnum example.BookFormat);
                 (2%positive, NEnumValue Unknown)] in
  s !! 2%positive = Some (NEnumValue Unknown)
  /\ val_enum Unknown = Some 1%positive
  /\ s !! 1%positive = Some (NEnum example.BookFormat)
  /\ (has_lower (val_name Unknown) = true
      \/ (forall stem, val_name Unknown <> stem +:+ "_UNSPECIFIED"))
  /\ run (Lint aip0126.unspecified (Some 2%positive)) s =
     (Ok [{| Message := "The first enum value should be "
                        +:+ quote (aip0126.wanted
                                     (enum_name example.BookFormat));
             Suggestion := aip0126.wanted (enum_name example.BookFormat);
             Descriptor := Some 2%positive;
             Location := DescriptorName (Some 2%positive) |}], s).
Proof.
  intros Unknown s.
  assert (s !! 2%positive = Some (NEnumValue Unknown)) as H1 by reflexivity.
  assert (val_enum Unknown = Some 1%positive) as H2 by reflexivity.
  assert (s !! 1%positive = Some (NEnum example.BookFormat))
    as H3 by reflexivity.
  assert (has_lower (val_name Unknown) = true
          \/ (forall stem, val_name Unknown <> stem +:+ "_UNSPECIFIED"))
    as H4 by (left; reflexivity).
  exact (conj H1 (conj H2 (conj H3 (conj H4
           (unspecified_reports_lowercase_and_unsuffixed_names
              s 2%positive 1%positive Unknown example.BookFormat
              H1 H2 H3 H4))))).
Defined.


Lemma object_values_silent_cases_witness :
  example.heap !! 6%positive = Some (NField example.contents_key)
  /\ fld_file example.contents_key = Some 1%positive
  /\ example.heap !! 1%positive = Some (NFile example.library_proto)
  /\ fld_map_value example.contents_key = None
  /\ run (applies aip25146.objectValues (Some 6%positive)) example.heap
     = (Ok false, example.heap).
Proof.
  assert (example.heap !! 6%positive = Some (NField example.contents_key))
    as H1 by reflexivity.
  assert (fld_file example.contents_key = Some 1%positive)
    as H2 by reflexivity.
  assert (example.heap !! 1%positive = Some (NFile example.library_proto))
    as H3 by reflexivity.
  assert (fld_map_value example.contents_key = None) as H4 by reflexivity.
  exact (conj H1 (conj H2 (conj H3 (conj H4
           (proj1 (proj2 (object_values_silent_cases example.heap
                            6%positive 1%positive _ _ H1 H2 H3)) H4))))).
Defined.

End more_witnesses.

(** ** How the checks on a method relate *)

Section method_lints_together.
Context `{!Collaborators}.
Variables (s : Store) (m : addr) (md : MethodDescriptor).
Hypothesis method_at_m : s !! m = Some (NMethod md).

(** X17.  On a method with at least one HTTP rule, [LintNoHTTPBody] and
    [LintWildcardHTTPBody] cannot both return nil, and [LintHTTPMethod]
    cannot return nil for two different verbs: what each wants of every
    rule excludes what the other wants. *)
Theorem http_checks_exclude_each_other :
  http_rules_of md <> [] ->
  ~ (run (utils.LintNoHTTPBody (Some m)) s = (Ok None, s)
     /\ run (utils.LintWildcardHTTPBody (Some m)) s = (Ok None, s))
  /\ (forall verb verb', verb <> verb' ->
        ~ (run (utils.LintHTTPMethod verb (Some m)) s = (Ok None, s)
           /\ run (utils.LintHTTPMethod verb' (Some m)) s = (Ok None, s))).
Proof.
  intros Hrules. split.
  - unfold utils.LintNoHTTPBody, utils.LintWildcardHTTPBody.
    rewrite !(lintHTTPBody_run s m md _ _ method_at_m).
    intros [Hno Hwild].
    destruct (decide (Forall (fun r => Body r = "") _)) as [Hall |];
      [| discriminate].
    destruct (decide (Forall (fun r => Body r = "*") _)) as [Hall' |];
      [| discriminate].
    destruct (http_rules_of md) as [| r rest]; [contradiction |].
    inversion Hall as [| ? ? Hr _]. inversion Hall' as [| ? ? Hr' _].
    rewrite Hr in Hr'. discriminate.
  - intros verb verb' Hne. rewrite !(LintHTTPMethod_run s m md method_at_m).
    intros [Hv Hv'].
    destruct (decide (Forall (fun r => Method r = verb) _)) as [Hall |];
      [| discriminate].
    destruct (decide (Forall (fun r => Method r = verb') _)) as [Hall' |];
      [| discriminate].
    destruct (http_rules_of md) as [| r rest]; [contradiction |].
    inversion Hall as [| ? ? Hr _]. inversion Hall' as [| ? ? Hr' _].
    apply Hne. rewrite <- Hr, <- Hr'. reflexivity.
Qed.

Lemma LintHTTPURIVariableCount_nil_iff (n : Z) :
  run (utils.LintHTTPURIVariableCount (Some m) n) s = (Ok None, s)
  <-> fold_left (fun varsCount httpRule =>
                   utils.max varsCount
                     (Z.of_nat (size (utils.GetVariables httpRule))))
                (http_rules_of md) 0%Z = n.
Proof.
  unfold utils.LintHTTPURIVariableCount.
  rewrite (run_bind_ok _ _ _ _ _ (GetHTTPRules_run s m md method_at_m)).
  destruct (decide (_ ≠ n)) as [Hne | Heq].
  - split; [discriminate | intros Heq; contradiction].
  - apply dec_stable in Heq. split; [intros _; exact Heq | reflexivity].
Qed.

(** X18.  For every method exactly one count satisfies
    [LintHTTPURIVariableCount], and it is not negative.  When the method
    has an HTTP rule and [LintHTTPURIHasVariable] returns nil for some
    variable, that count is at least 1, so a count of 0 is reported. *)
Theorem http_uri_variable_count_is_unique :
  (exists n,
     (0 <= n)%Z
     /\ run (utils.LintHTTPURIVariableCount (Some m) n) s = (Ok None, s)
     /\ forall n',
          run (utils.LintHTTPURIVariableCount (Some m) n') s = (Ok None, s) ->
          n' = n)
  /\ (forall v,
        http_rules_of md <> [] ->
        run (utils.LintHTTPURIHasVariable (Some m) v) s = (Ok None, s) ->
        run (utils.LintHTTPURIVariableCount (Some m) 0) s <> (Ok None, s)).
Proof.
  destruct (varsCount_spec (http_rules_of md) 0%Z) as (Hge & Hall & _).
  cbv zeta in Hge, Hall. split.
  - eexists. split; [exact Hge |]. split.
    + apply LintHTTPURIVariableCount_nil_iff. reflexivity.
    + intros n' Hn'. apply LintHTTPURIVariableCount_nil_iff in Hn'.
      symmetry. exact Hn'.
  - intros v Hrules Hvar Hzero.
    apply LintHTTPURIVariableCount_nil_iff in Hzero.
    rewrite (LintHTTPURIHasVariable_run s m md method_at_m) in Hvar.
    destruct (decide (Forall _ _)) as [Hhas |]; [| discriminate].
    destruct (http_rules_of md) as [| r rest]; [contradiction |].
    inversion Hhas as [| ? ? [x Hx] _]; subst.
    specialize (Hall r (or_introl eq_refl)). rewrite Hzero in Hall.
    assert (size (utils.GetVariables r) <> 0%nat) as Hsize.
    { intros Hempty. apply map_size_empty_iff in Hempty.
      rewrite Hempty, lookup_empty in Hx. discriminate. }
    lia.
Qed.

End method_lints_together.

(** ** Nil descriptors *)

Section nil_descriptors.
Context `{!Collaborators}.

(** X19.  Given a nil descriptor, the helpers that start by reading it, and
    the guards and checks of the two rules, panic with a nil dereference
    and leave the store as it was; none of them returns an error for it.
    So does [LintMethodHasMatchingRequestName] on a method whose request
    type is nil. *)
Theorem nil_descriptors_panic (s : Store) :
  (forall field,
     run (utils.LintFieldPresent None field) s = (Panic NilDereference, s))
  /\ run (utils.LintSingularStringField None) s = (Panic NilDereference, s)
  /\ run (utils.LintSingularBoolField None) s = (Panic NilDereference, s)
  /\ run (utils.LintFieldMask None) s = (Panic NilDereference, s)
  /\ (forall field,
        run (utils.LintFieldPresentAndSingularString field None) s
        = (Panic NilDereference, s))
  /\ run (utils.LintMethodHasMatchingRequestName None) s
     = (Panic NilDereference, s)
  /\ run (utils.LintMethodHasMatchingResponseName None) s
     = (Panic NilDereference, s)
  /\ run (applies aip25146.objectValues None) s = (Panic NilDereference, s)
  /\ run (Lint aip25146.objectValues None) s = (Panic NilDereference, s)
  /\ run (applies aip0126.unspecified None) s = (Panic NilDereference, s)
  /\ run (Lint aip0126.unspecified None) s = (Panic NilDereference, s)
  /\ (forall m md,
        s !! m = Some (NMethod md) -> mth_input md = None ->
        run (utils.LintMethodHasMatchingRequestName (Some m)) s
        = (Panic NilDereference, s)).
Proof.
  repeat split; try reflexivity.
  intros m md Hm Hin. unfold utils.LintMethodHasMatchingRequestName.
  go_unfold. go_lookup. rewrite Hin. reflexivity.
Qed.

End nil_descriptors.

Section relation_witnesses.
#[local] Existing Instance example.collaborators.

Lemma http_checks_exclude_each_other_witness :
  example.heap !! 13%positive = Some (NMethod example.GetBook)
  /\ http_rules_of example.GetBook <> []
  /\ ~ (run (utils.LintNoHTTPBody (Some 13%positive)) example.heap
        = (Ok None, example.heap)
        /\ run (utils.LintWildcardHTTPBody (Some 13%positive)) example.heap
           = (Ok None, example.heap))
  /\ (forall verb verb', verb <> verb' ->
        ~ (run (utils.LintHTTPMethod verb (Some 13%positive)) example.heap
           = (Ok None, example.heap)
           /\ run (utils.LintHTTPMethod verb' (Some 13%positive)) example.heap
              = (Ok None, example.heap))).
Proof.
  assert (example.heap !! 13%positive = Some (NMethod example.GetBook))
    as H1 by reflexivity.
  assert (http_rules_of example.GetBook <> []) as H2 by discriminate.
  exact (conj H1 (conj H2
           (http_checks_exclude_each_other example.heap 13%positive _ H1 H2))).
Defined.

Lemma http_uri_variable_count_is_unique_witness :
  example.heap !! 13%positive = Some (NMethod example.GetBook)
  /\ (exists n,
        (0 <= n)%Z
        /\ run (utils.LintHTTPURIVariableCount (Some 13%positive) n)
               example.heap = (Ok None, example.heap)
        /\ forall n',
             run (utils.LintHTTPURIVariableCount (Some 13%positive) n')
                 example.heap = (Ok None, example.heap) ->
             n' = n)
  /\ (forall v,
        http_rules_of example.GetBook <> [] ->
        run (utils.LintHTTPURIHasVariable (Some 13%positive) v) example.heap
        = (Ok None, example.heap) ->
        run (utils.LintHTTPURIVariableCount (Some 13%positive) 0) example.heap
        <> (Ok None, example.heap)).
Proof.
  assert (example.heap !! 13%positive = Some (NMethod example.GetBook))
    as H1 by reflexivity.
  exact (conj H1
           (http_uri_variable_count_is_unique example.heap 13%positive _ H1)).
Defined.

End relation_witnesses.
